(** * WME keyboard shortcut demo: chord codec and shortcut lifecycle

    A shallow embedding of [WME-Shortcut-Demo.user.js].

    - JavaScript strings are [string]s; every [ascii] stands for one UTF-16
      code unit below 256.
    - The numbers the script computes with are the results of [parseInt]:
      [NaN], the infinities and the doubles that hold an integer.  Such a
      double is represented by the integer it holds; [parseInt] rounds to
      the nearest double and [String] prints the shortest numeral that reads
      back as the double, as JavaScript engines do.
    - [null] returned by the converter is the [None] of [option string].
    - An exception that leaves a function is recorded as the [Thrown]
      completion of that function.
    - Console output and toast notifications do not influence any state and
      are left out, except where building the text of a log line can throw. *)

From Stdlib Require Import ZArith Ascii String List Lia Bool.
From stdpp Require Import base gmap strings.

Local Open Scope Z_scope.
Set Warnings "-register-all".

(** ** JavaScript values *)

Module Js.

(** Values that reach the script from [JSON.parse] or from the host.
    [Number] carries the integers; the script treats any other number as it
    treats a non-zero integer. *)
Inductive Value : Type :=
| Undefined
| Null
| Boolean (b : bool)
| Number (n : Z)
| Str (s : string)
| Array (elems : list Value)
| Object (props : list (string * Value)).

(** [ToBoolean]. *)
Definition truthy (v : Value) : bool :=
  match v with
  | Undefined | Null => false
  | Boolean b => b
  | Number n => negb (n =? 0)
  | Str s => negb (String.eqb s "")
  | Array _ | Object _ => true
  end.

(** [typeof v === 'string']. *)
Definition isString (v : Value) : bool :=
  match v with
  | Str _ => true
  | _ => false
  end.

(** [a || b]. *)
Definition logicalOr (a b : Value) : Value := if truthy a then a else b.

(** Own property of an object; the property list names each key once. *)
Fixpoint getProp (name : string) (props : list (string * Value)) : Value :=
  match props with
  | [] => Undefined
  | (k, v) :: rest => if String.eqb k name then v else getProp name rest
  end.

Fixpoint hasOwn (name : string) (props : list (string * Value)) : bool :=
  match props with
  | [] => false
  | (k, _) :: rest => String.eqb k name || hasOwn name rest
  end.

(** [o?.shortcutKeys]: [undefined] on [null] and [undefined]; primitives and
    arrays have no such property. *)
Definition optShortcutKeys (o : Value) : Value :=
  match o with
  | Object props => getProp "shortcutKeys" props
  | _ => Undefined
  end.

(** [a === b].  Arrays and objects compare by reference; the values compared
    by the script come from different sources and never share one. *)
Definition strictEq (a b : Value) : bool :=
  match a, b with
  | Undefined, Undefined => true
  | Null, Null => true
  | Boolean x, Boolean y => Bool.eqb x y
  | Number x, Number y => x =? y
  | Str x, Str y => String.eqb x y
  | _, _ => false
  end.

(** A value of type [string | null]. *)
Definition ofOption (o : option string) : Value :=
  match o with
  | Some s => Str s
  | None => Null
  end.

(** Whether [ToString], as a template literal applies it, throws a
    [TypeError] on a value made by [JSON.parse].  Primitives never do.  An
    object is converted through its [toString] and [valueOf]: the inherited
    [toString] answers, but an own [toString] property is data, not a
    function, and the inherited [valueOf] gives the object back, so the
    conversion fails.  An array joins the conversions of its elements, where
    [null] stands for the empty text. *)
Fixpoint toStringThrows (v : Value) : bool :=
  match v with
  | Array elems => existsb toStringThrows elems
  | Object props => hasOwn "toString" props
  | _ => false
  end.

(** *** Code units *)

Definition code (c : ascii) : Z := Z.of_N (N_of_ascii c).

(** [StrWhiteSpaceChar] restricted to code units below 256: TAB, LF, VT, FF,
    CR, SP and NBSP. *)
Definition isWhiteSpace (c : ascii) : bool :=
  let n := code c in
  ((9 <=? n) && (n <=? 13)) || (n =? 32) || (n =? 160).

Definition isDigit (c : ascii) : bool :=
  let n := code c in (48 <=? n) && (n <=? 57).

Definition lowerChar (c : ascii) : ascii :=
  let n := code c in
  if ((65 <=? n) && (n <=? 90))
     || ((192 <=? n) && (n <=? 214))
     || ((216 <=? n) && (n <=? 222))
  then ascii_of_N (Z.to_N (n + 32))
  else c.

(** [s.toLowerCase()]. *)
Fixpoint toLowerCase (s : string) : string :=
  match s with
  | EmptyString => EmptyString
  | String c r => String (lowerChar c) (toLowerCase r)
  end.

(** *** [String.prototype.split(',')] *)

Definition comma : ascii := ","%char.

Fixpoint split (s : string) : list string :=
  match s with
  | EmptyString => [EmptyString]
  | String c r =>
      if Ascii.eqb c comma then EmptyString :: split r
      else match split r with
           | h :: t => String c h :: t
           | [] => [String c EmptyString]
           end
  end.

(** *** Numbers *)

(** The numbers [parseInt] can return: [NaN], a double holding the integer
    [z], or an infinity. *)
Inductive Num : Type :=
| NaN
| Fin (z : Z)
| Inf (negative : bool).

Definition isNaN (n : Num) : bool :=
  match n with
  | NaN => true
  | _ => false
  end.

(** The double nearest to an integer, ties to the even significand of 53
    bits; from [2 ^ 1024] on the result is an infinity. *)
Definition roundToDouble (n : Z) : Num :=
  let a := Z.abs n in
  if a <? 2 ^ 53 then Fin n
  else
    let e := Z.log2 a - 52 in
    let q := a / 2 ^ e in
    let r := a mod 2 ^ e in
    let half := 2 ^ (e - 1) in
    let q := if (half <? r) || ((r =? half) && Z.odd q) then q + 1 else q in
    let v := q * 2 ^ e in
    if 2 ^ 1024 <=? v then Inf (n <? 0)
    else Fin (if n <? 0 then - v else v).

(** [n >= b] and [n <= b] for an integer [b]. *)
Definition geq (n : Num) (b : Z) : bool :=
  match n with
  | NaN => false
  | Fin z => b <=? z
  | Inf negative => negb negative
  end.

Definition leq (n : Num) (b : Z) : bool :=
  match n with
  | NaN => false
  | Fin z => z <=? b
  | Inf negative => negative
  end.

(** [String.fromCharCode(n)]: the code unit [ToUint16(n)]. *)
Definition fromCharCode (n : Num) : string :=
  match n with
  | Fin z => String (ascii_of_N (Z.to_N (z mod 65536))) ""
  | NaN | Inf _ => String zero ""
  end.

(** *** [parseInt(s, 10)] *)

Fixpoint trimStart (s : string) : string :=
  match s with
  | EmptyString => EmptyString
  | String c r => if isWhiteSpace c then trimStart r else s
  end.

(** The longest prefix of decimal digits. *)
Fixpoint digitPrefix (s : string) : string :=
  match s with
  | EmptyString => EmptyString
  | String c r => if isDigit c then String c (digitPrefix r) else EmptyString
  end.

(** The integer denoted by a string of decimal digits, most significant
    digit first. *)
Fixpoint digitsValue (acc : Z) (s : string) : Z :=
  match s with
  | EmptyString => acc
  | String c r => digitsValue (10 * acc + (code c - 48)) r
  end.

(** Leading white space is skipped, one sign is accepted, the digits that
    follow are read and whatever comes after them is ignored; without a
    digit the result is [NaN].  With radix 10 no hexadecimal prefix is
    recognised.  The integer read is rounded to a double. *)
Definition parseInt (s : string) : Num :=
  let trimmed := trimStart s in
  let '(sign, body) :=
    match trimmed with
    | String c r =>
        if Ascii.eqb c "-" then (-1, r)
        else if Ascii.eqb c "+" then (1, r)
        else (1, trimmed)
    | EmptyString => (1, trimmed)
    end in
  let digits := digitPrefix body in
  if String.eqb digits "" then NaN
  else roundToDouble (sign * digitsValue 0 digits).

(** *** [String(n)] *)

Definition digitChar (d : Z) : ascii := ascii_of_N (Z.to_N (48 + d)).

Fixpoint decimalDigits (fuel : nat) (n : Z) : string :=
  match fuel with
  | O => EmptyString
  | S fuel' =>
      (if n <? 10 then EmptyString else decimalDigits fuel' (n / 10))
      +:+ String (digitChar (n mod 10)) EmptyString
  end.

Definition digitCount (n : Z) : nat := S (Z.to_nat (Z.log2 n)).

(** The decimal numeral of a natural number. *)
Definition digitsOf (n : Z) : string := decimalDigits (digitCount n) n.

(** The decimal numeral of an integer. *)
Definition decimal (n : Z) : string :=
  if n <? 0 then String "-" (digitsOf (- n)) else digitsOf n.

Fixpoint zeros (n : nat) : string :=
  match n with
  | O => EmptyString
  | S n' => String "0" (zeros n')
  end.

(** Whether the integer [v] rounds to the double [a]. *)
Definition roundsTo (v a : Z) : bool :=
  match roundToDouble v with
  | Fin z => z =? a
  | _ => false
  end.

(** The numerals of [k] digits and decimal exponent [n] that read back as
    the double [a]: pairs [(s, n)] standing for [s * 10 ^ (n - k)]. *)
Definition candidates (a k n : Z) : list (Z * Z) :=
  if n <? k then []
  else
    let p := 10 ^ (n - k) in
    filter (fun c => (10 ^ (k - 1) <=? fst c) && (fst c <? 10 ^ k)
                     && roundsTo (fst c * p) a)
           [(a / p, n); (a / p + 1, n)].

(** Of two numerals of [k] digits the one nearer to [a]; the even one when
    they are equally near. *)
Definition nearer (a k : Z) (x y : Z * Z) : Z * Z :=
  let dx := Z.abs (fst x * 10 ^ (snd x - k) - a) in
  let dy := Z.abs (fst y * 10 ^ (snd y - k) - a) in
  if dy <? dx then y
  else if (dy =? dx) && Z.even (fst y) then y
  else x.

(** The shortest numeral that reads back as the double [a], searched from
    [k] digits on: the digits [s], their number [k] and the exponent [n]. *)
Fixpoint shortestFrom (fuel : nat) (a k : Z) : option (Z * Z * Z) :=
  match fuel with
  | O => None
  | S fuel' =>
      let d := Z.of_nat (String.length (digitsOf a)) in
      match candidates a k d ++ candidates a k (d + 1) with
      | [] => shortestFrom fuel' a (k + 1)
      | c :: cs =>
          let best := fold_left (nearer a k) cs c in
          Some (fst best, k, snd best)
      end
  end.

(** [Number::toString] for a positive double [a] that holds an integer:
    below [2 ^ 53] every digit counts; above, the shortest numeral is
    printed, padded with zeros up to 21 digits and in exponent notation
    beyond. *)
Definition positiveToString (a : Z) : string :=
  if a <? 2 ^ 53 then digitsOf a
  else
    match shortestFrom 17 a 1 with
    | None => digitsOf a
    | Some (s, k, n) =>
        if n <=? 21 then digitsOf s +:+ zeros (Z.to_nat (n - k))
        else
          match digitsOf s with
          | String c EmptyString => String c ("e+" +:+ digitsOf (n - 1))
          | String c rest => String c ("." +:+ rest +:+ "e+" +:+ digitsOf (n - 1))
          | EmptyString => EmptyString
          end
    end.

(** [String(n)] for a number [n]. *)
Definition numToString (n : Num) : string :=
  match n with
  | NaN => "NaN"
  | Fin z => if z <? 0 then String "-" (positiveToString (- z))
             else positiveToString z
  | Inf negative => if negative then "-Infinity" else "Infinity"
  end.

(** [String(n)] for the number that an integer [n] denotes. *)
Definition numberToString (n : Z) : string := numToString (roundToDouble n).

(** *** Bitwise and *)

(** [ToInt32]; [NaN] and the infinities give 0. *)
Definition ToInt32 (n : Num) : Z :=
  match n with
  | Fin z =>
      let m := z mod 2 ^ 32 in
      if 2 ^ 31 <=? m then m - 2 ^ 32 else m
  | NaN | Inf _ => 0
  end.

(** [a & b]. *)
Definition bitAnd (a b : Num) : Z := Z.land (ToInt32 a) (ToInt32 b).

(** [ToBoolean] of a 32-bit integer. *)
Definition truthyNum (n : Z) : bool := negb (n =? 0).

End Js.

(** ** The converter *)

(** [convertNumericShortcutToString]: the host's numeric chord
    ["mask,keyCode"] to the chord string [createShortcut] expects. *)
Definition convertNumericShortcutToString (numericFormat : Js.Value)
  : option string :=
  if negb (Js.truthy numericFormat) || negb (Js.isString numericFormat)
  then None
  else
    match numericFormat with
    | Js.Str s =>
        let parts := Js.split s in
        if negb (Nat.eqb (length parts) 2) then None
        else
          match parts with
          | [p0; p1] =>
              let modifierBitmask := Js.parseInt p0 in
              let keyCode := Js.parseInt p1 in
              if Js.isNaN modifierBitmask || Js.isNaN keyCode then None
              else
                let modifiers := EmptyString in
                let modifiers :=
                  if Js.truthyNum (Js.bitAnd modifierBitmask (Js.Fin 1))
                  then modifiers +:+ "S" else modifiers in
                let modifiers :=
                  if Js.truthyNum (Js.bitAnd modifierBitmask (Js.Fin 2))
                  then modifiers +:+ "C" else modifiers in
                let modifiers :=
                  if Js.truthyNum (Js.bitAnd modifierBitmask (Js.Fin 4))
                  then modifiers +:+ "A" else modifiers in
                let keyRepresentation :=
                  if Js.geq keyCode 48 && Js.leq keyCode 57
                  then Js.fromCharCode keyCode
                  else if Js.geq keyCode 65 && Js.leq keyCode 90
                  then Js.toLowerCase (Js.fromCharCode keyCode)
                  else Js.numToString keyCode in
                if negb (String.eqb modifiers "")
                then Some (modifiers +:+ "+" +:+ keyRepresentation)
                else Some keyRepresentation
          | _ => None
          end
    | _ => None
    end.

(** ** The host and the browser storage *)

(** A keyboard shortcut as the host lists it and as [createShortcut] takes
    it; [shortcutKeys] has type [string | null].  The callback carries no
    data and is left out. *)
Record Shortcut : Type := mkShortcut {
  shortcutId : string;
  name : string;
  description : string;
  shortcutKeys : option string
}.

(** Calls the script issues to [wmeSDK.Shortcuts].  Both are made inside
    [try]/[catch] blocks that only log, so their outcome does not steer the
    script. *)
Inductive SdkCall : Type :=
| deleteShortcut (id : string)
| createShortcut (args : Shortcut).

(** A text held by [localStorage], identified by what [JSON.parse] makes of
    it: the empty text, a text that parses to a value, or a text on which
    [JSON.parse] throws. *)
Inductive StoredText : Type :=
| EmptyText
| JsonText (v : Js.Value)
| BadText.

(** [JSON.stringify] of an object whose properties are strings or [null];
    [JSON.parse] gives the object back. *)
Definition JSON_stringify (v : Js.Value) : StoredText := JsonText v.

(** The four shortcut instances. *)
Inductive Instance : Type := Demo1 | Demo2 | Demo3 | Demo4.

Definition sameInstance (i j : Instance) : bool :=
  match i, j with
  | Demo1, Demo1 | Demo2, Demo2 | Demo3, Demo3 | Demo4, Demo4 => true
  | _, _ => false
  end.

(** What the script owns: the storage, the calls issued to the host so far,
    the [lastSavedKeys] variables of the two auto-saving shortcuts, and the
    shortcuts whose startup has run to its end: these have their save and
    reset hooks on the window and, for shortcuts 2 and 4, their timer
    running. *)
Record State : Type := mkState {
  localStorage : gmap string StoredText;
  sdkCalls : list SdkCall;
  lastSavedKeys2 : Js.Value;
  lastSavedKeys4 : Js.Value;
  initialized : list Instance
}.

(** How a function ends: normally, or with an exception that nothing in it
    catches; either way with the state it has reached. *)
Inductive Completion : Type :=
| Normal (st : State)
| Thrown (st : State).

Definition stateOf (c : Completion) : State :=
  match c with
  | Normal st | Thrown st => st
  end.

Definition completes (c : Completion) : bool :=
  match c with
  | Normal _ => true
  | Thrown _ => false
  end.

Definition setItem (key : string) (text : StoredText) (st : State) : State :=
  mkState (<[key := text]> (localStorage st)) (sdkCalls st)
          (lastSavedKeys2 st) (lastSavedKeys4 st) (initialized st).

Definition removeItem (key : string) (st : State) : State :=
  mkState (delete key (localStorage st)) (sdkCalls st)
          (lastSavedKeys2 st) (lastSavedKeys4 st) (initialized st).

Definition callSdk (c : SdkCall) (st : State) : State :=
  mkState (localStorage st) (sdkCalls st ++ [c])
          (lastSavedKeys2 st) (lastSavedKeys4 st) (initialized st).

Definition setLastSavedKeys2 (v : Js.Value) (st : State) : State :=
  mkState (localStorage st) (sdkCalls st) v (lastSavedKeys4 st) (initialized st).

Definition setLastSavedKeys4 (v : Js.Value) (st : State) : State :=
  mkState (localStorage st) (sdkCalls st) (lastSavedKeys2 st) v (initialized st).

(** Step 5 of a startup: the hooks are put on the window and the timer, if
    the shortcut has one, is started. *)
Definition exposeHooks (i : Instance) (st : State) : State :=
  mkState (localStorage st) (sdkCalls st) (lastSavedKeys2 st)
          (lastSavedKeys4 st) (initialized st ++ [i]).

Definition isInitialized (i : Instance) (st : State) : bool :=
  existsb (sameInstance i) (initialized st).

(** Step 1 of every shortcut: [savedConfig] stays [null] when the key is
    absent, when the text is empty and when [JSON.parse] throws. *)
Definition loadSavedConfig (storageKey : string)
    (storage : gmap string StoredText) : Js.Value :=
  match storage !! storageKey with
  | Some (JsonText v) => v
  | Some EmptyText | Some BadText | None => Js.Null
  end.

(** [converted || null]. *)
Definition orNull (converted : option string) : option string :=
  match converted with
  | Some s => if String.eqb s "" then None else Some s
  | None => None
  end.

(** [allShortcuts.find(s => s.shortcutId === shortcutId)]. *)
Definition findShortcut (id : string) (allShortcuts : list Shortcut)
  : option Shortcut :=
  List.find (fun s => String.eqb (shortcutId s) id) allShortcuts.

(** The object literal [configToSave]. *)
Definition configToSave (shortcut : Shortcut) : Js.Value :=
  Js.Object [ ("shortcutId", Js.Str (shortcutId shortcut));
              ("name", Js.Str (name shortcut));
              ("description", Js.Str (description shortcut));
              ("shortcutKeys", Js.ofOption (shortcutKeys shortcut)) ].

(** ** Shortcut 1: manual save *)

Module Action1.

Definition shortcutId : string := "WMEShortcutDemo_Action1".
Definition storageKey : string := "WMEShortcutDemo_Action1_Config".

(** Step 3 logs [savedConfig.shortcutKeys] through a template literal that
    stands outside every [try]: when the conversion of that value to a
    string throws, the exception leaves the function after the
    [deleteShortcut] of step 2 and before step 4. *)
Definition initializeShortcut1 (st : State) : Completion :=
  let savedConfig := loadSavedConfig storageKey (localStorage st) in
  let st :=
    if Js.truthy (Js.optShortcutKeys savedConfig)
    then callSdk (deleteShortcut shortcutId) st else st in
  if Js.truthy (Js.optShortcutKeys savedConfig)
     && Js.toStringThrows (Js.optShortcutKeys savedConfig)
  then Thrown st
  else
    let shortcutKeysToUse :=
      if Js.truthy (Js.optShortcutKeys savedConfig)
      then orNull (convertNumericShortcutToString (Js.optShortcutKeys savedConfig))
      else None in
    let st :=
      callSdk (createShortcut
                 (mkShortcut shortcutId "Demo Action 1"
                    "USER CUSTOMIZABLE - Assign keys, then run: window.saveDemoShortcut1() in console"
                    shortcutKeysToUse)) st in
    Normal (exposeHooks Demo1 st).

Definition saveDemoShortcut1 (allShortcuts : list Shortcut) (st : State)
  : State :=
  match findShortcut shortcutId allShortcuts with
  | None => st
  | Some shortcut =>
      setItem storageKey (JSON_stringify (configToSave shortcut)) st
  end.

Definition resetDemoShortcut1 (st : State) : State := removeItem storageKey st.

End Action1.

(** ** Shortcut 2: hardcoded default with auto-save *)

Module Action2.

Definition shortcutId : string := "WMEShortcutDemo_Action2".
Definition storageKey : string := "WMEShortcutDemo_Action2_Config".
Definition HARDCODED_DEFAULT : string := "A+2".

(** Step 3 logs the converted chord only, a string or [null]: nothing in
    this startup throws. *)
Definition initializeShortcut2 (st : State) : State :=
  let savedConfig := loadSavedConfig storageKey (localStorage st) in
  let st :=
    if Js.truthy (Js.optShortcutKeys savedConfig)
    then callSdk (deleteShortcut shortcutId) st else st in
  let shortcutKeysToUse :=
    if Js.truthy (Js.optShortcutKeys savedConfig)
    then orNull (convertNumericShortcutToString (Js.optShortcutKeys savedConfig))
    else Some HARDCODED_DEFAULT in
  let st :=
    callSdk (createShortcut
               (mkShortcut shortcutId "Demo Action 2"
                  "HARDCODED DEFAULT (A+2) + AUTO-SAVE - Change keys, auto-saves every 2 seconds!"
                  shortcutKeysToUse)) st in
  let st :=
    setLastSavedKeys2 (Js.logicalOr (Js.optShortcutKeys savedConfig) Js.Null) st in
  exposeHooks Demo2 st.

(** The body of the [setInterval] callback. *)
Definition autoSaveTick2 (allShortcuts : list Shortcut) (st : State) : State :=
  match findShortcut shortcutId allShortcuts with
  | Some shortcut =>
      if Js.truthy (Js.ofOption (shortcutKeys shortcut)) then
        if negb (Js.strictEq (Js.ofOption (shortcutKeys shortcut))
                             (lastSavedKeys2 st))
        then
          let st := setItem storageKey (JSON_stringify (configToSave shortcut)) st in
          setLastSavedKeys2 (Js.ofOption (shortcutKeys shortcut)) st
        else st
      else st
  | None => st
  end.

Definition saveDemoShortcut2 (allShortcuts : list Shortcut) (st : State)
  : State :=
  match findShortcut shortcutId allShortcuts with
  | None => st
  | Some shortcut =>
      let st := setItem storageKey (JSON_stringify (configToSave shortcut)) st in
      setLastSavedKeys2 (Js.ofOption (shortcutKeys shortcut)) st
  end.

Definition resetDemoShortcut2 (st : State) : State := removeItem storageKey st.

End Action2.

(** ** Shortcut 3: hardcoded default with user override *)

Module Action3.

Definition shortcutId : string := "WMEShortcutDemo_Action3".
Definition storageKey : string := "WMEShortcutDemo_Action3_Config".
Definition HARDCODED_DEFAULT : string := "A+9".

Definition initializeShortcut3 (st : State) : State :=
  let savedConfig := loadSavedConfig storageKey (localStorage st) in
  let st :=
    if Js.truthy (Js.optShortcutKeys savedConfig)
    then callSdk (deleteShortcut shortcutId) st else st in
  let shortcutKeysToUse :=
    if Js.truthy (Js.optShortcutKeys savedConfig)
    then orNull (convertNumericShortcutToString (Js.optShortcutKeys savedConfig))
    else Some HARDCODED_DEFAULT in
  let st :=
    callSdk (createShortcut
               (mkShortcut shortcutId "Demo Action 3"
                  "HARDCODED DEFAULT (A+9) - Change keys, then run: window.saveDemoShortcut3() or reset: window.resetDemoShortcut3()"
                  shortcutKeysToUse)) st in
  exposeHooks Demo3 st.

Definition saveDemoShortcut3 (allShortcuts : list Shortcut) (st : State)
  : State :=
  match findShortcut shortcutId allShortcuts with
  | None => st
  | Some shortcut =>
      if negb (Js.truthy (Js.ofOption (shortcutKeys shortcut))) then st
      else setItem storageKey (JSON_stringify (configToSave shortcut)) st
  end.

Definition resetDemoShortcut3 (st : State) : State := removeItem storageKey st.

End Action3.

(** ** Shortcut 4: auto-save *)

Module Action4.

Definition shortcutId : string := "WMEShortcutDemo_Action4".
Definition storageKey : string := "WMEShortcutDemo_Action4_Config".

(** As in shortcut 1, step 3 logs [savedConfig.shortcutKeys] outside every
    [try]. *)
Definition initializeShortcut4 (st : State) : Completion :=
  let savedConfig := loadSavedConfig storageKey (localStorage st) in
  let st :=
    if Js.truthy (Js.optShortcutKeys savedConfig)
    then callSdk (deleteShortcut shortcutId) st else st in
  if Js.truthy (Js.optShortcutKeys savedConfig)
     && Js.toStringThrows (Js.optShortcutKeys savedConfig)
  then Thrown st
  else
    let shortcutKeysToUse :=
      if Js.truthy (Js.optShortcutKeys savedConfig)
      then orNull (convertNumericShortcutToString (Js.optShortcutKeys savedConfig))
      else None in
    let st :=
      callSdk (createShortcut
                 (mkShortcut shortcutId "Demo Action 4"
                    "AUTO-SAVE - Assign keys, automatically saved every 2 seconds!"
                    shortcutKeysToUse)) st in
    let st :=
      setLastSavedKeys4 (Js.logicalOr (Js.optShortcutKeys savedConfig) Js.Null) st in
    Normal (exposeHooks Demo4 st).

(** The body of the [setInterval] callback. *)
Definition autoSaveTick4 (allShortcuts : list Shortcut) (st : State) : State :=
  match findShortcut shortcutId allShortcuts with
  | Some shortcut =>
      if Js.truthy (Js.ofOption (shortcutKeys shortcut)) then
        if negb (Js.strictEq (Js.ofOption (shortcutKeys shortcut))
                             (lastSavedKeys4 st))
        then
          let st := setItem storageKey (JSON_stringify (configToSave shortcut)) st in
          setLastSavedKeys4 (Js.ofOption (shortcutKeys shortcut)) st
        else st
      else st
  | None => st
  end.

Definition saveDemoShortcut4 (allShortcuts : list Shortcut) (st : State)
  : State :=
  match findShortcut shortcutId allShortcuts with
  | None => st
  | Some shortcut =>
      let st := setItem storageKey (JSON_stringify (configToSave shortcut)) st in
      setLastSavedKeys4 (Js.ofOption (shortcutKeys shortcut)) st
  end.

Definition resetDemoShortcut4 (st : State) : State := removeItem storageKey st.

End Action4.

(** ** The script as a whole *)

(** The four startups in a row; an exception thrown by one of them leaves
    [initializeShortcuts], and the startups after it do not run. *)
Definition initializeShortcuts (st : State) : Completion :=
  match Action1.initializeShortcut1 st with
  | Thrown st => Thrown st
  | Normal st =>
      let st := Action2.initializeShortcut2 st in
      let st := Action3.initializeShortcut3 st in
      Action4.initializeShortcut4 st
  end.

(** The state a fresh page starts from: the storage survives a reload,
    nothing else does. *)
Definition freshPage (storage : gmap string StoredText) : State :=
  mkState storage [] Js.Undefined Js.Undefined [].

(** A page load: [initScript] runs [initializeShortcuts] on a fresh page;
    the state is the one reached when the script ends or throws. *)
Definition pageLoad (storage : gmap string StoredText) : State :=
  stateOf (initializeShortcuts (freshPage storage)).

Definition idOf (i : Instance) : string :=
  match i with
  | Demo1 => Action1.shortcutId
  | Demo2 => Action2.shortcutId
  | Demo3 => Action3.shortcutId
  | Demo4 => Action4.shortcutId
  end.

Definition storageKeyOf (i : Instance) : string :=
  match i with
  | Demo1 => Action1.storageKey
  | Demo2 => Action2.storageKey
  | Demo3 => Action3.storageKey
  | Demo4 => Action4.storageKey
  end.

Definition defaultOf (i : Instance) : option string :=
  match i with
  | Demo1 | Demo4 => None
  | Demo2 => Some Action2.HARDCODED_DEFAULT
  | Demo3 => Some Action3.HARDCODED_DEFAULT
  end.

(** The startup of one shortcut. *)
Definition initialize (i : Instance) (st : State) : Completion :=
  match i with
  | Demo1 => Action1.initializeShortcut1 st
  | Demo2 => Normal (Action2.initializeShortcut2 st)
  | Demo3 => Normal (Action3.initializeShortcut3 st)
  | Demo4 => Action4.initializeShortcut4 st
  end.

(** The startup protocol of one shortcut on a fresh page. *)
Definition startup (i : Instance) (storage : gmap string StoredText)
  : Completion :=
  initialize i (freshPage storage).

(** The bodies of the save and reset hooks. *)
Definition save (i : Instance) : list Shortcut -> State -> State :=
  match i with
  | Demo1 => Action1.saveDemoShortcut1
  | Demo2 => Action2.saveDemoShortcut2
  | Demo3 => Action3.saveDemoShortcut3
  | Demo4 => Action4.saveDemoShortcut4
  end.

Definition reset (i : Instance) : State -> State :=
  match i with
  | Demo1 => Action1.resetDemoShortcut1
  | Demo2 => Action2.resetDemoShortcut2
  | Demo3 => Action3.resetDemoShortcut3
  | Demo4 => Action4.resetDemoShortcut4
  end.

(** The auto-saving instances. *)
Inductive AutoSaved : Type := Auto2 | Auto4.

Definition instanceOf (a : AutoSaved) : Instance :=
  match a with Auto2 => Demo2 | Auto4 => Demo4 end.

(** A tick of the timer of an auto-saving shortcut: the callback runs if
    the startup of the shortcut got as far as starting the timer. *)
Definition tick (a : AutoSaved) (allShortcuts : list Shortcut) (st : State)
  : State :=
  if isInitialized (instanceOf a) st then
    match a with
    | Auto2 => Action2.autoSaveTick2 allShortcuts st
    | Auto4 => Action4.autoSaveTick4 allShortcuts st
    end
  else st.

Definition lastSavedKeys (a : AutoSaved) (st : State) : Js.Value :=
  match a with
  | Auto2 => lastSavedKeys2 st
  | Auto4 => lastSavedKeys4 st
  end.

(** The chord handed to [createShortcut] for [id], if the script asked for
    that registration: [Some None] is a registration without keys. *)
Fixpoint registeredKeys (id : string) (calls : list SdkCall)
  : option (option string) :=
  match calls with
  | [] => None
  | createShortcut args :: rest =>
      match registeredKeys id rest with
      | Some k => Some k
      | None =>
          if String.eqb (shortcutId args) id then Some (shortcutKeys args)
          else None
      end
  | deleteShortcut _ :: rest => registeredKeys id rest
  end.

(** ** The claims in the words of the specification *)

(** The integers a double holds exactly together with their neighbours:
    the safe integers of JavaScript. *)
Definition safeInteger (z : Z) : Prop := - (2 ^ 53 - 1) <= z <= 2 ^ 53 - 1.

(** Modifier letters, one per mask bit, bit 0 first. *)
Definition modifierLetters (m : Z) : string :=
  (if Z.testbit m 0 then "S" else "")
  +:+ (if Z.testbit m 1 then "C" else "")
  +:+ (if Z.testbit m 2 then "A" else "").

(** The key part of a chord string: the digit itself for the codes of the
    digits, the lowercase letter for the codes of the capital letters, the
    decimal numeral of the code otherwise. *)
Definition keyText (k : Z) : string :=
  if (48 <=? k) && (k <=? 57)
  then substring (Z.to_nat (k - 48)) 1 "0123456789"
  else if (65 <=? k) && (k <=? 90)
  then substring (Z.to_nat (k - 65)) 1 "abcdefghijklmnopqrstuvwxyz"
  else Js.decimal k.

Definition chordText (m k : Z) : string :=
  match modifierLetters m with
  | EmptyString => keyText k
  | letters => letters +:+ "+" +:+ keyText k
  end.

(** The numeric chord ["m,k"]. *)
Definition numericChord (m k : Z) : string :=
  Js.numberToString m +:+ "," +:+ Js.numberToString k.

(** A token [parseInt] can read: optional white space, an optional sign and
    at least one decimal digit; anything may follow. *)
Definition startsWithDigit (s : string) : bool :=
  match s with
  | String c _ => Js.isDigit c
  | EmptyString => false
  end.

Fixpoint integerParsable (s : string) : bool :=
  match s with
  | EmptyString => false
  | String c r =>
      if Js.isWhiteSpace c then integerParsable r
      else if Ascii.eqb c "-" || Ascii.eqb c "+" then startsWithDigit r
      else Js.isDigit c
  end.

Fixpoint countCommas (s : string) : nat :=
  match s with
  | EmptyString => O
  | String c r => if Ascii.eqb c Js.comma then S (countCommas r) else countCommas r
  end.

Fixpoint beforeComma (s : string) : string :=
  match s with
  | EmptyString => EmptyString
  | String c r => if Ascii.eqb c Js.comma then EmptyString else String c (beforeComma r)
  end.

Fixpoint afterComma (s : string) : string :=
  match s with
  | EmptyString => EmptyString
  | String c r => if Ascii.eqb c Js.comma then r else afterComma r
  end.

(** A string of exactly two comma-separated integer-parsable tokens. *)
Definition twoIntegerTokens (v : Js.Value) : bool :=
  match v with
  | Js.Str s =>
      Nat.eqb (countCommas s) 1
      && integerParsable (beforeComma s) && integerParsable (afterComma s)
  | _ => false
  end.

(** A token that is an integer numeral and nothing else. *)
Fixpoint allDigits (s : string) : bool :=
  match s with
  | EmptyString => true
  | String c r => Js.isDigit c && allDigits r
  end.

Definition integerNumeral (s : string) : bool :=
  match s with
  | EmptyString => false
  | String c r =>
      if Ascii.eqb c "-" then negb (String.eqb r "") && allDigits r
      else allDigits s
  end.

(** ** Runs of the script *)

(** What can happen to a loaded page.  A save and a tick carry the list the
    host returns from [getAllShortcuts] at that moment. *)
Inductive Op : Type :=
| Reload
| Save (i : Instance) (allShortcuts : list Shortcut)
| Reset (i : Instance)
| Tick (a : AutoSaved) (allShortcuts : list Shortcut).

(** A hook can be called once the startup of its shortcut has put it on the
    window. *)
Definition run (op : Op) (st : State) : State :=
  match op with
  | Reload => pageLoad (localStorage st)
  | Save i allShortcuts =>
      if isInitialized i st then save i allShortcuts st else st
  | Reset i => if isInitialized i st then reset i st else st
  | Tick a allShortcuts => tick a allShortcuts st
  end.

Definition runAll (ops : list Op) (st : State) : State :=
  fold_left (fun st op => run op st) ops st.

(** A stored record whose [shortcutKeys] is not [null]. *)
Definition keysNotNull (t : StoredText) : bool :=
  match t with
  | JsonText cfg =>
      match Js.optShortcutKeys cfg with
      | Js.Null => false
      | _ => true
      end
  | EmptyText | BadText => true
  end.

Definition storageInvariant (storage : gmap string StoredText) : Prop :=
  map_Forall (fun _ t => keysNotNull t = true) storage.

(** A manual save of shortcut 1, 2 or 4 while the live registration has no
    keys. *)
Definition savesWithoutKeys (op : Op) : bool :=
  match op with
  | Save Demo3 _ => false
  | Save i allShortcuts =>
      match findShortcut (idOf i) allShortcuts with
      | Some shortcut =>
          match shortcutKeys shortcut with
          | None => true
          | Some _ => false
          end
      | None => false
      end
  | _ => false
  end.

(** The chord the startup protocol registers according to the
    specification: the decoded persisted chord when a record with non-null
    [shortcutKeys] exists, the hardcoded default otherwise. *)
Definition specStartupChord (hardcodedDefault : option string)
    (savedConfig : Js.Value) : option string :=
  match Js.optShortcutKeys savedConfig with
  | Js.Null | Js.Undefined => hardcodedDefault
  | keys => convertNumericShortcutToString keys
  end.

(** The chord the startup code computes in steps 3 of the four shortcuts. *)
Definition shortcutKeysToUse (hardcodedDefault : option string)
    (savedConfig : Js.Value) : option string :=
  if Js.truthy (Js.optShortcutKeys savedConfig)
  then orNull (convertNumericShortcutToString (Js.optShortcutKeys savedConfig))
  else hardcodedDefault.

(** The host calls of steps 2 and 4. *)
Definition startupCalls (id name description : string)
    (hardcodedDefault : option string) (savedConfig : Js.Value) : list SdkCall :=
  (if Js.truthy (Js.optShortcutKeys savedConfig) then [deleteShortcut id] else [])
  ++ [createShortcut
        (mkShortcut id name description
           (shortcutKeysToUse hardcodedDefault savedConfig))].

(** The tail of the converter, once both numbers are known. *)
Definition codedModifiers (modifierBitmask : Js.Num) : string :=
  let modifiers := EmptyString in
  let modifiers :=
    if Js.truthyNum (Js.bitAnd modifierBitmask (Js.Fin 1))
    then modifiers +:+ "S" else modifiers in
  let modifiers :=
    if Js.truthyNum (Js.bitAnd modifierBitmask (Js.Fin 2))
    then modifiers +:+ "C" else modifiers in
  if Js.truthyNum (Js.bitAnd modifierBitmask (Js.Fin 4))
  then modifiers +:+ "A" else modifiers.

Definition codedKey (keyCode : Js.Num) : string :=
  if Js.geq keyCode 48 && Js.leq keyCode 57 then Js.fromCharCode keyCode
  else if Js.geq keyCode 65 && Js.leq keyCode 90
  then Js.toLowerCase (Js.fromCharCode keyCode)
  else Js.numToString keyCode.

Definition codedChord (modifierBitmask keyCode : Js.Num) : string :=
  if negb (String.eqb (codedModifiers modifierBitmask) "")
  then codedModifiers modifierBitmask +:+ "+" +:+ codedKey keyCode
  else codedKey keyCode.


(** ** Sample registrations

    Live registrations as the host may list them: with the empty chord, with
    no chord and with numeric chords. *)
Definition emptyChord3 : Shortcut :=
  mkShortcut Action3.shortcutId "Demo Action 3" "Demo" (Some "").

Definition noChord1 : Shortcut :=
  mkShortcut Action1.shortcutId "Demo Action 1" "Demo" None.

Definition altEight1 : Shortcut :=
  mkShortcut Action1.shortcutId "Demo Action 1" "Demo" (Some "4,56").

Definition ctrlQ3 : Shortcut :=
  mkShortcut Action3.shortcutId "Demo Action 3" "Demo" (Some "2,81").

Definition shiftX2 : Shortcut :=
  mkShortcut Action2.shortcutId "Demo Action 2" "Demo" (Some "2,88").


(** A stored record whose [shortcutKeys] cannot be converted to a string:
    the text [{"shortcutKeys":{"toString":0}}]. *)
Definition unprintableRecord : Js.Value :=
  Js.Object [("shortcutKeys", Js.Object [("toString", Js.Number 0)])].

(** ** Views of a run

    Vocabulary for the properties of whole runs. *)

(** What step 1 of shortcut [i] finds in [savedConfig?.shortcutKeys]. *)
Definition savedKeys (i : Instance) (storage : gmap string StoredText)
  : Js.Value :=
  Js.optShortcutKeys (loadSavedConfig (storageKeyOf i) storage).

(** Whether the startup of shortcut [i] throws on this storage: shortcuts 1
    and 4 do when the stored [shortcutKeys] are truthy and cannot be
    converted to a string. *)
Definition startupThrows (i : Instance) (storage : gmap string StoredText)
  : bool :=
  match i with
  | Demo1 | Demo4 =>
      Js.truthy (savedKeys i storage) && Js.toStringThrows (savedKeys i storage)
  | Demo2 | Demo3 => false
  end.

(** Whether a page load gets as far as the startup of shortcut [i]: the
    startup of shortcut 1 comes first and must not throw. *)
Definition reaches (i : Instance) (storage : gmap string StoredText) : bool :=
  match i with
  | Demo1 => true
  | _ => negb (startupThrows Demo1 storage)
  end.

(** The shortcut whose hook an operation runs; a reload runs all four
    startups. *)
Definition opInstance (op : Op) : option Instance :=
  match op with
  | Reload => None
  | Save i _ => Some i
  | Reset i => Some i
  | Tick a _ => Some (instanceOf a)
  end.

Definition isReload (op : Op) : bool :=
  match op with
  | Reload => true
  | _ => false
  end.

(** The storage keys of the four shortcuts. *)
Definition ownKey (key : string) : bool :=
  String.eqb key Action1.storageKey || String.eqb key Action2.storageKey
  || String.eqb key Action3.storageKey || String.eqb key Action4.storageKey.

(** The ids of the [createShortcut] calls, in the order they were made. *)
Fixpoint createdIds (calls : list SdkCall) : list string :=
  match calls with
  | [] => []
  | createShortcut args :: rest => shortcutId args :: createdIds rest
  | deleteShortcut _ :: rest => createdIds rest
  end.

(** [n] runs of the timer callback while the host keeps listing the same
    registrations. *)
Definition ticks (n : nat) (a : AutoSaved) (allShortcuts : list Shortcut)
    (st : State) : State :=
  Nat.iter n (tick a allShortcuts) st.

(** Assignment to the [lastSavedKeys] variable of an auto-saving shortcut. *)
Definition setLastSavedKeys (a : AutoSaved) (v : Js.Value) (st : State) : State :=
  match a with
  | Auto2 => setLastSavedKeys2 v st
  | Auto4 => setLastSavedKeys4 v st
  end.

(** [cfg.shortcutId] of a stored record. *)
Definition recordId (cfg : Js.Value) : Js.Value :=
  match cfg with
  | Js.Object props => Js.getProp "shortcutId" props
  | _ => Js.Undefined
  end.

(** Every record stored under the key of a shortcut carries the id of that
    shortcut. *)
Definition recordsNameTheirShortcut (storage : gmap string StoredText) : Prop :=
  forall i cfg,
    storage !! storageKeyOf i = Some (JsonText cfg) ->
    recordId cfg = Js.Str (idOf i).

(** The ids a page load asks registrations for, by what the startups of
    shortcuts 1 and 4 do. *)
Definition expectedCreations (storage : gmap string StoredText) : list string :=
  if startupThrows Demo1 storage then []
  else
    [Action1.shortcutId; Action2.shortcutId; Action3.shortcutId]
    ++ (if startupThrows Demo4 storage then [] else [Action4.shortcutId]).

(** ** Properties of the JavaScript primitives *)

#[local] Arguments String.append !s1 s2 /.

Section Primitives.

Import Js.

Lemma code_digitChar d : 0 <= d < 10 -> code (digitChar d) = 48 + d.
Proof.
  intros Hd. unfold code, digitChar.
  rewrite N_ascii_embedding; lia.
Qed.

Lemma isDigit_digitChar d : 0 <= d < 10 -> isDigit (digitChar d) = true.
Proof.
  intros Hd. unfold isDigit. rewrite code_digitChar by assumption.
  apply andb_true_intro; split; apply Z.leb_le; lia.
Qed.

Lemma digit_not_space c : isDigit c = true -> isWhiteSpace c = false.
Proof.
  unfold isDigit, isWhiteSpace. intros H.
  apply andb_prop in H as [H1 H2]. apply Z.leb_le in H1, H2.
  repeat (apply orb_false_intro); try (apply Z.eqb_neq; lia).
  apply andb_false_intro2. apply Z.leb_gt. lia.
Qed.

Lemma digit_not_sign c :
  isDigit c = true -> Ascii.eqb c "-" = false /\ Ascii.eqb c "+" = false.
Proof.
  intros H. split; apply Ascii.eqb_neq; intros ->; discriminate H.
Qed.

Lemma digit_not_comma c : isDigit c = true -> Ascii.eqb c comma = false.
Proof. intros H. apply Ascii.eqb_neq; intros ->; discriminate H. Qed.

Lemma allDigits_app a b : allDigits (a +:+ b) = allDigits a && allDigits b.
Proof.
  induction a as [|c a IH]; simpl; [reflexivity|].
  rewrite IH. apply andb_assoc.
Qed.

Lemma digitPrefix_allDigits s rest :
  allDigits s = true -> startsWithDigit rest = false ->
  digitPrefix (s +:+ rest) = s.
Proof.
  intros Hs Hr. induction s as [|c s IH]; simpl in *.
  - destruct rest as [|c r]; simpl in *; [reflexivity|]. now rewrite Hr.
  - apply andb_prop in Hs as [Hc Hs]. rewrite Hc, IH; auto.
Qed.

Lemma app_empty_r (s : string) : s +:+ "" = s.
Proof. induction s as [|c s IH]; simpl; congruence. Qed.

Lemma digitsValue_snoc s : forall acc c,
  digitsValue acc (s +:+ String c "") = 10 * digitsValue acc s + (code c - 48).
Proof.
  induction s as [|d s IH]; intros acc c; simpl; [reflexivity|]. apply IH.
Qed.

Lemma decimalDigits_allDigits fuel : forall n,
  allDigits (decimalDigits fuel n) = true.
Proof.
  induction fuel as [|fuel IH]; intros n; simpl; [reflexivity|].
  rewrite allDigits_app. simpl.
  rewrite isDigit_digitChar by (apply Z.mod_pos_bound; lia).
  destruct (n <? 10); simpl; [reflexivity|].
  now rewrite IH.
Qed.

Lemma decimalDigits_value fuel : forall n,
  0 <= n < 10 ^ Z.of_nat fuel -> digitsValue 0 (decimalDigits fuel n) = n.
Proof.
  induction fuel as [|fuel IH]; intros n Hn.
  - simpl in *. lia.
  - cbn [decimalDigits]. rewrite digitsValue_snoc.
    rewrite code_digitChar by (apply Z.mod_pos_bound; lia).
    destruct (Z.ltb_spec n 10) as [Hlt|Hge].
    + simpl. rewrite Z.mod_small; lia.
    + rewrite IH.
      * pose proof (Z.div_mod n 10). lia.
      * rewrite Nat2Z.inj_succ, Z.pow_succ_r in Hn by lia.
        split; [apply Z.div_pos; lia|].
        apply Z.div_lt_upper_bound; lia.
Qed.

Lemma digitCount_enough n : 0 <= n -> n < 10 ^ Z.of_nat (digitCount n).
Proof.
  intros Hn. unfold digitCount.
  rewrite Nat2Z.inj_succ, Z2Nat.id by apply Z.log2_nonneg.
  destruct (Z.eq_dec n 0) as [->|Hz]; [reflexivity|].
  pose proof (Z.log2_spec n ltac:(lia)) as [_ Hup].
  eapply Z.lt_le_trans; [exact Hup|].
  apply Z.pow_le_mono_l. pose proof (Z.log2_nonneg n). lia.
Qed.

Lemma decimalDigits_nonempty fuel n : decimalDigits (S fuel) n <> "".
Proof.
  cbn [decimalDigits].
  destruct (if n <? 10 then "" else decimalDigits fuel (n / 10)); discriminate.
Qed.

Lemma digitsOf_allDigits n : allDigits (digitsOf n) = true.
Proof. apply decimalDigits_allDigits. Qed.

Lemma digitsOf_nonempty n : digitsOf n <> "".
Proof. apply decimalDigits_nonempty. Qed.

Lemma digitsOf_value n : 0 <= n -> digitsValue 0 (digitsOf n) = n.
Proof.
  intros Hn. apply decimalDigits_value. split; [lia|]. now apply digitCount_enough.
Qed.

Lemma allDigits_no_comma s : allDigits s = true -> countCommas s = O.
Proof.
  induction s as [|c s IH]; simpl; [reflexivity|]. intros H.
  apply andb_prop in H as [Hc Hs]. rewrite (digit_not_comma _ Hc). auto.
Qed.

Lemma countCommas_app a b : countCommas (a +:+ b) = (countCommas a + countCommas b)%nat.
Proof.
  induction a as [|c a IH]; simpl; [reflexivity|].
  destruct (Ascii.eqb c comma); simpl; now rewrite IH.
Qed.

Lemma zeros_no_comma n : countCommas (zeros n) = O.
Proof. induction n as [|n IH]; [reflexivity|exact IH]. Qed.

(** *** Rounding and printing *)

Lemma roundToDouble_safe n : Z.abs n < 2 ^ 53 -> roundToDouble n = Fin n.
Proof.
  intros H. unfold roundToDouble.
  destruct (Z.ltb_spec (Z.abs n) (2 ^ 53)); [reflexivity | lia].
Qed.

Lemma roundToDouble_not_NaN n : isNaN (roundToDouble n) = false.
Proof.
  unfold roundToDouble. destruct (Z.abs n <? 2 ^ 53); [reflexivity|].
  cbv zeta. now destruct (2 ^ 1024 <=? _).
Qed.

Lemma safeInteger_abs n : safeInteger n -> Z.abs n < 2 ^ 53.
Proof. unfold safeInteger. lia. Qed.

Lemma positiveToString_safe a : a < 2 ^ 53 -> positiveToString a = digitsOf a.
Proof.
  intros H. unfold positiveToString.
  destruct (Z.ltb_spec a (2 ^ 53)); [reflexivity | lia].
Qed.

Lemma numberToString_safe n : safeInteger n -> numberToString n = decimal n.
Proof.
  intros H. pose proof (safeInteger_abs n H) as Ha.
  unfold numberToString, decimal. rewrite roundToDouble_safe by assumption.
  cbn [numToString]. destruct (n <? 0); rewrite positiveToString_safe; trivial; lia.
Qed.

Lemma positiveToString_no_comma a : countCommas (positiveToString a) = O.
Proof.
  unfold positiveToString.
  destruct (a <? 2 ^ 53); [apply allDigits_no_comma, digitsOf_allDigits|].
  destruct (shortestFrom 17 a 1) as [[[s k] n]|];
    [|apply allDigits_no_comma, digitsOf_allDigits].
  destruct (n <=? 21).
  - rewrite countCommas_app, zeros_no_comma.
    now rewrite (allDigits_no_comma _ (digitsOf_allDigits s)).
  - pose proof (digitsOf_allDigits s) as Hs.
    pose proof (allDigits_no_comma _ (digitsOf_allDigits (n - 1))) as He.
    destruct (digitsOf s) as [|c rest]; [reflexivity|].
    cbn [allDigits] in Hs. apply andb_prop in Hs as [Hc Hrest].
    destruct rest as [|c' rest'].
    + cbn [countCommas]. rewrite (digit_not_comma _ Hc), countCommas_app, He.
      reflexivity.
    + cbn [countCommas]. rewrite (digit_not_comma _ Hc).
      rewrite !countCommas_app, He, (allDigits_no_comma _ Hrest). reflexivity.
Qed.

Lemma positiveToString_nonempty a : positiveToString a <> "".
Proof.
  unfold positiveToString.
  destruct (a <? 2 ^ 53); [apply digitsOf_nonempty|].
  destruct (shortestFrom 17 a 1) as [[[s k] n]|]; [|apply digitsOf_nonempty].
  pose proof (digitsOf_nonempty s) as Hs.
  destruct (n <=? 21).
  - destruct (digitsOf s); [congruence | discriminate].
  - destruct (digitsOf s) as [|c [|c' rest]]; [congruence | discriminate | discriminate].
Qed.

Lemma numToString_no_comma n : countCommas (numToString n) = O.
Proof.
  destruct n as [|z|[|]]; try reflexivity.
  cbn [numToString]. destruct (z <? 0).
  - cbn [countCommas]. change (Ascii.eqb "-" comma) with false. cbv iota.
    apply positiveToString_no_comma.
  - apply positiveToString_no_comma.
Qed.

Lemma numToString_nonempty n : numToString n <> "".
Proof.
  destruct n as [|z|[|]]; try discriminate.
  cbn [numToString]. destruct (z <? 0); [discriminate|].
  apply positiveToString_nonempty.
Qed.

Lemma numberToString_no_comma n : countCommas (numberToString n) = O.
Proof. apply numToString_no_comma. Qed.

Lemma decimal_no_comma n : countCommas (decimal n) = O.
Proof.
  unfold decimal. destruct (n <? 0).
  - cbn [countCommas]. change (Ascii.eqb "-" comma) with false. cbv iota.
    apply allDigits_no_comma, digitsOf_allDigits.
  - apply allDigits_no_comma, digitsOf_allDigits.
Qed.

(** *** Reading numerals *)

(** Reading a numeral and ignoring what follows it. *)
Lemma parseInt_digits s rest :
  allDigits s = true -> s <> "" -> startsWithDigit rest = false ->
  parseInt (s +:+ rest) = roundToDouble (digitsValue 0 s).
Proof.
  intros Hs Hne Hr. unfold parseInt.
  destruct s as [|c s]; [congruence|].
  pose proof Hs as Hs'. simpl in Hs'. apply andb_prop in Hs' as [Hc _].
  cbn [String.append trimStart]. rewrite (digit_not_space _ Hc).
  destruct (digit_not_sign _ Hc) as [-> ->].
  change (String c (s +:+ rest)) with (String c s +:+ rest).
  rewrite digitPrefix_allDigits by assumption.
  simpl String.eqb. f_equal. lia.
Qed.

Lemma parseInt_negative s rest :
  allDigits s = true -> s <> "" -> startsWithDigit rest = false ->
  parseInt (String "-" s +:+ rest) = roundToDouble (- digitsValue 0 s).
Proof.
  intros Hs Hne Hr. unfold parseInt. cbn [String.append trimStart].
  change (isWhiteSpace "-") with false. cbv iota.
  change (Ascii.eqb "-" "-") with true. cbv iota.
  rewrite digitPrefix_allDigits by assumption.
  destruct s as [|c s]; [congruence|]. simpl String.eqb. f_equal; lia.
Qed.

(** [parseInt] reads the decimal numeral of a safe integer back, whatever
    follows the numeral. *)
Lemma parseInt_decimal_prefix n rest :
  safeInteger n -> startsWithDigit rest = false ->
  parseInt (decimal n +:+ rest) = Fin n.
Proof.
  intros Hn Hr. pose proof (safeInteger_abs n Hn) as Ha.
  unfold decimal. destruct (Z.ltb_spec n 0) as [Hneg|Hpos].
  - rewrite parseInt_negative;
      [|apply digitsOf_allDigits|apply digitsOf_nonempty|assumption].
    rewrite digitsOf_value by lia.
    rewrite roundToDouble_safe by lia. f_equal; lia.
  - rewrite parseInt_digits;
      [|apply digitsOf_allDigits|apply digitsOf_nonempty|assumption].
    rewrite digitsOf_value by lia. now apply roundToDouble_safe.
Qed.

Lemma parseInt_decimal n : safeInteger n -> parseInt (decimal n) = Fin n.
Proof.
  intros Hn. rewrite <- (app_empty_r (decimal n)).
  now apply parseInt_decimal_prefix.
Qed.

(** [parseInt] reads back what [String] prints of a safe integer. *)
Lemma parseInt_numberToString n :
  safeInteger n -> parseInt (numberToString n) = Fin n.
Proof. intros Hn. rewrite numberToString_safe by assumption. now apply parseInt_decimal. Qed.

End Primitives.

(** ** Properties of the converter *)

Section Converter.

Import Js.

Lemma split_length s : length (split s) = S (countCommas s).
Proof.
  induction s as [|c s IH]; simpl; [reflexivity|].
  destruct (Ascii.eqb c comma); simpl; [now rewrite IH|].
  destruct (split s); simpl in *; lia.
Qed.

Lemma split_no_comma s : countCommas s = O -> split s = [s].
Proof.
  induction s as [|c s IH]; simpl; [reflexivity|].
  destruct (Ascii.eqb c comma); [discriminate|].
  intros H. now rewrite (IH H).
Qed.

Lemma split_one_comma s :
  countCommas s = 1%nat -> split s = [beforeComma s; afterComma s].
Proof.
  induction s as [|c s IH]; simpl; [discriminate|].
  destruct (Ascii.eqb c comma); intros H.
  - injection H as H. now rewrite (split_no_comma _ H).
  - now rewrite (IH H).
Qed.

Lemma countCommas_join a b :
  countCommas (a +:+ String comma b) = S (countCommas a + countCommas b).
Proof.
  induction a as [|c a IH]; simpl; [reflexivity|].
  destruct (Ascii.eqb c comma); simpl; lia.
Qed.

Lemma beforeComma_join a b :
  countCommas a = O -> beforeComma (a +:+ String comma b) = a.
Proof.
  induction a as [|c a IH]; simpl; [reflexivity|].
  destruct (Ascii.eqb c comma); [discriminate|]. intros H. now rewrite IH.
Qed.

Lemma afterComma_join a b :
  countCommas a = O -> afterComma (a +:+ String comma b) = b.
Proof.
  induction a as [|c a IH]; simpl; [reflexivity|].
  destruct (Ascii.eqb c comma); [discriminate|]. auto.
Qed.

Lemma split_join a b :
  countCommas a = O -> countCommas b = O ->
  split (a +:+ String comma b) = [a; b].
Proof.
  intros Ha Hb. rewrite split_one_comma.
  - now rewrite beforeComma_join, afterComma_join.
  - rewrite countCommas_join, Ha, Hb. reflexivity.
Qed.

Lemma digitPrefix_empty s :
  String.eqb (digitPrefix s) "" = negb (startsWithDigit s).
Proof. destruct s as [|c s]; simpl; [reflexivity|]. now destruct (isDigit c). Qed.

Lemma parseInt_space c s : isWhiteSpace c = true -> parseInt (String c s) = parseInt s.
Proof. intros H. unfold parseInt. simpl trimStart. now rewrite H. Qed.

(** [parseInt] answers [NaN] exactly on the tokens it cannot read. *)
Lemma isNaN_parseInt s : isNaN (parseInt s) = negb (integerParsable s).
Proof.
  induction s as [|c s IH]; [reflexivity|].
  cbn [integerParsable].
  destruct (isWhiteSpace c) eqn:Hws; [now rewrite parseInt_space|].
  unfold parseInt. simpl trimStart. rewrite Hws.
  destruct (Ascii.eqb c "-"); [|destruct (Ascii.eqb c "+")]; cbn [orb];
    rewrite digitPrefix_empty.
  - destruct (startsWithDigit s); cbn [negb]; [apply roundToDouble_not_NaN | reflexivity].
  - destruct (startsWithDigit s); cbn [negb]; [apply roundToDouble_not_NaN | reflexivity].
  - cbn [startsWithDigit].
    destruct (isDigit c); cbn [negb]; [apply roundToDouble_not_NaN | reflexivity].
Qed.

Lemma convert_parts s p0 p1 :
  split s = [p0; p1] ->
  convertNumericShortcutToString (Str s) =
    if isNaN (parseInt p0) || isNaN (parseInt p1) then None
    else Some (codedChord (parseInt p0) (parseInt p1)).
Proof.
  intros Hs. unfold convertNumericShortcutToString.
  destruct s as [|c s]; [discriminate|].
  cbn [truthy isString negb orb String.eqb]. rewrite Hs. cbn [length Nat.eqb negb].
  destruct (isNaN (parseInt p0) || isNaN (parseInt p1)); [reflexivity|].
  unfold codedChord, codedModifiers, codedKey.
  destruct (negb _); reflexivity.
Qed.

Lemma convert_join p0 p1 :
  countCommas p0 = O -> countCommas p1 = O ->
  convertNumericShortcutToString (Str (p0 +:+ "," +:+ p1)) =
    if isNaN (parseInt p0) || isNaN (parseInt p1) then None
    else Some (codedChord (parseInt p0) (parseInt p1)).
Proof. intros H0 H1. apply convert_parts. now apply split_join. Qed.

Lemma convert_shape s :
  countCommas s <> 1%nat -> convertNumericShortcutToString (Str s) = None.
Proof.
  intros H. unfold convertNumericShortcutToString.
  destruct (negb (truthy (Str s)) || negb (isString (Str s))); [reflexivity|].
  rewrite split_length.
  destruct (Nat.eqb_spec (S (countCommas s)) 2%nat) as [E|E]; [lia|reflexivity].
Qed.

Lemma convert_not_string v :
  isString v = false -> convertNumericShortcutToString v = None.
Proof.
  intros H. unfold convertNumericShortcutToString.
  now rewrite H, orb_true_r.
Qed.

Lemma convert_is_None v :
  convertNumericShortcutToString v = None <-> twoIntegerTokens v = false.
Proof.
  destruct (isString v) eqn:Hv;
    [|rewrite (convert_not_string _ Hv); destruct v; now split].
  destruct v as [| |b|n|s|l|l]; try discriminate Hv.
  cbn [twoIntegerTokens].
  destruct (Nat.eqb_spec (countCommas s) 1%nat) as [E|E].
  - rewrite (convert_parts _ _ _ (split_one_comma _ E)). cbn [andb].
    rewrite !isNaN_parseInt.
    destruct (integerParsable (beforeComma s)), (integerParsable (afterComma s));
      now split.
  - rewrite (convert_shape _ E). now split.
Qed.

(** The converter never answers with the empty string. *)
Lemma codedKey_nonempty k : codedKey k <> "".
Proof.
  unfold codedKey.
  destruct (geq k 48 && leq k 57); [destruct k; discriminate|].
  destruct (geq k 65 && leq k 90); [destruct k; discriminate|].
  apply numToString_nonempty.
Qed.

(** Every answer of the converter is the chord built from two parsed
    numbers. *)
Lemma convert_Some v chord :
  convertNumericShortcutToString v = Some chord ->
  exists s,
    v = Str s /\ countCommas s = 1%nat
    /\ isNaN (parseInt (beforeComma s)) = false
    /\ isNaN (parseInt (afterComma s)) = false
    /\ chord = codedChord (parseInt (beforeComma s)) (parseInt (afterComma s)).
Proof.
  intros H.
  destruct (isString v) eqn:Hv;
    [|rewrite (convert_not_string _ Hv) in H; discriminate].
  destruct v as [| |b|n|s|l|l]; try discriminate Hv.
  destruct (Nat.eq_dec (countCommas s) 1%nat) as [E|E];
    [|rewrite (convert_shape _ E) in H; discriminate].
  rewrite (convert_parts _ _ _ (split_one_comma _ E)) in H.
  destruct (isNaN (parseInt (beforeComma s))) eqn:Hm; [discriminate|].
  destruct (isNaN (parseInt (afterComma s))) eqn:Hk; [discriminate|].
  injection H as <-. exists s. repeat split; assumption || reflexivity.
Qed.

Lemma convert_nonempty v : convertNumericShortcutToString v <> Some "".
Proof.
  intros H. apply convert_Some in H as (s & _ & _ & _ & _ & H).
  unfold codedChord in H. destruct (negb _).
  - destruct (codedModifiers _); discriminate.
  - symmetry in H. now apply codedKey_nonempty in H.
Qed.

Lemma orNull_convert v :
  orNull (convertNumericShortcutToString v) = convertNumericShortcutToString v.
Proof.
  pose proof (convert_nonempty v) as H.
  destruct (convertNumericShortcutToString v) as [s|]; [|reflexivity].
  simpl. destruct (String.eqb_spec s ""); congruence.
Qed.

(** *** Mask bits *)

Lemma land_pow2 x i :
  0 <= i -> Z.land x (2 ^ i) = if Z.testbit x i then 2 ^ i else 0.
Proof.
  intros Hi. apply Z.bits_inj'. intros n Hn.
  rewrite Z.land_spec, Z.pow2_bits_eqb by assumption.
  destruct (Z.eqb_spec i n) as [->|Hne].
  - destruct (Z.testbit x n) eqn:E; rewrite andb_true_r.
    + now rewrite Z.pow2_bits_true.
    + now rewrite Z.bits_0.
  - rewrite andb_false_r.
    destruct (Z.testbit x i); [|now rewrite Z.bits_0].
    rewrite Z.pow2_bits_false; [reflexivity | assumption].
Qed.

Lemma ToInt32_low_bits x i :
  0 <= i < 32 -> Z.testbit (ToInt32 (Fin x)) i = Z.testbit x i.
Proof.
  intros Hi. unfold ToInt32. cbv zeta.
  destruct (2 ^ 31 <=? x mod 2 ^ 32).
  - rewrite <- (Z.mod_pow2_bits_low (x mod 2 ^ 32 - 2 ^ 32) 32 i) by lia.
    assert ((x mod 2 ^ 32 - 2 ^ 32) mod 2 ^ 32 = x mod 2 ^ 32) as ->.
    { replace (x mod 2 ^ 32 - 2 ^ 32) with (x mod 2 ^ 32 + (-1) * 2 ^ 32) by lia.
      rewrite Z.mod_add by lia. apply Z.mod_mod. lia. }
    apply Z.mod_pow2_bits_low. lia.
  - apply Z.mod_pow2_bits_low. lia.
Qed.

Lemma truthy_bitAnd x i :
  0 <= i < 31 -> truthyNum (bitAnd (Fin x) (Fin (2 ^ i))) = Z.testbit x i.
Proof.
  intros Hi. unfold truthyNum, bitAnd.
  assert (ToInt32 (Fin (2 ^ i)) = 2 ^ i) as ->.
  { unfold ToInt32. cbv zeta.
    assert (0 < 2 ^ i < 2 ^ 31) by (split; [lia | apply Z.pow_lt_mono_r; lia]).
    rewrite Z.mod_small by lia.
    destruct (Z.leb_spec (2 ^ 31) (2 ^ i)); [lia | reflexivity]. }
  rewrite land_pow2, ToInt32_low_bits by lia.
  destruct (Z.testbit x i); [|reflexivity].
  assert (0 < 2 ^ i) by lia.
  destruct (Z.eqb_spec (2 ^ i) 0); [lia | reflexivity].
Qed.

(** The letters the converter builds follow the three low bits of the mask. *)
Lemma codedModifiers_bits m : codedModifiers (Fin m) = modifierLetters m.
Proof.
  unfold codedModifiers, modifierLetters.
  pose proof (truthy_bitAnd m 0 ltac:(lia)) as H0. change (2 ^ 0) with 1 in H0.
  pose proof (truthy_bitAnd m 1 ltac:(lia)) as H1. change (2 ^ 1) with 2 in H1.
  pose proof (truthy_bitAnd m 2 ltac:(lia)) as H2. change (2 ^ 2) with 4 in H2.
  rewrite H0, H1, H2.
  destruct (Z.testbit m 0), (Z.testbit m 1), (Z.testbit m 2); reflexivity.
Qed.

Lemma modifierLetters_mod8 m : modifierLetters (m mod 8) = modifierLetters m.
Proof.
  unfold modifierLetters. change 8 with (2 ^ 3).
  now rewrite !Z.mod_pow2_bits_low by lia.
Qed.

(** *** Keys *)

Lemma codedKey_keyText k : safeInteger k -> codedKey (Fin k) = keyText k.
Proof.
  intros Hk. unfold codedKey, keyText. cbn [geq leq].
  destruct ((48 <=? k) && (k <=? 57)) eqn:Hd.
  - apply andb_prop in Hd as [H1 H2]. apply Z.leb_le in H1, H2.
    assert (exists n, k = 48 + Z.of_nat n /\ (n < 10)%nat) as (n & -> & Hn)
      by (exists (Z.to_nat (k - 48)); lia).
    do 10 (destruct n as [|n]; [reflexivity|]). lia.
  - destruct ((65 <=? k) && (k <=? 90)) eqn:Hl.
    + apply andb_prop in Hl as [H1 H2]. apply Z.leb_le in H1, H2.
      assert (exists n, k = 65 + Z.of_nat n /\ (n < 26)%nat) as (n & -> & Hn)
        by (exists (Z.to_nat (k - 65)); lia).
      do 26 (destruct n as [|n]; [reflexivity|]). lia.
    + pose proof (numberToString_safe k Hk) as H. unfold numberToString in H.
      now rewrite roundToDouble_safe in H by now apply safeInteger_abs.
Qed.

Lemma codedChord_chordText m k :
  safeInteger k -> codedChord (Fin m) (Fin k) = chordText m k.
Proof.
  intros Hk. unfold codedChord, chordText.
  rewrite codedModifiers_bits, (codedKey_keyText _ Hk).
  destruct (modifierLetters m); reflexivity.
Qed.

Lemma codedKey_no_comma k : countCommas (codedKey k) = O.
Proof.
  unfold codedKey.
  destruct (geq k 48 && leq k 57) eqn:Hd.
  - destruct k as [|z|b]; [discriminate Hd| |now destruct b].
    cbn [geq leq] in Hd. apply andb_prop in Hd as [H1 H2]. apply Z.leb_le in H1, H2.
    assert (exists n, z = 48 + Z.of_nat n /\ (n < 10)%nat) as (n & -> & Hn)
      by (exists (Z.to_nat (z - 48)); lia).
    do 10 (destruct n as [|n]; [reflexivity|]). lia.
  - destruct (geq k 65 && leq k 90) eqn:Hl; [|apply numToString_no_comma].
    destruct k as [|z|b]; [discriminate Hl| |now destruct b].
    cbn [geq leq] in Hl. apply andb_prop in Hl as [H1 H2]. apply Z.leb_le in H1, H2.
    assert (exists n, z = 65 + Z.of_nat n /\ (n < 26)%nat) as (n & -> & Hn)
      by (exists (Z.to_nat (z - 65)); lia).
    do 26 (destruct n as [|n]; [reflexivity|]). lia.
Qed.

Lemma codedModifiers_no_comma m : countCommas (codedModifiers m) = O.
Proof.
  unfold codedModifiers.
  destruct (truthyNum _), (truthyNum _), (truthyNum _); reflexivity.
Qed.

Lemma codedChord_no_comma m k : countCommas (codedChord m k) = O.
Proof.
  unfold codedChord.
  destruct (negb _); [|apply codedKey_no_comma].
  now rewrite !countCommas_app, codedKey_no_comma, codedModifiers_no_comma.
Qed.

(** The converter on the numeric chord of two safe integers. *)
Lemma convert_numericChord m k :
  safeInteger m -> safeInteger k ->
  convertNumericShortcutToString (Str (numericChord m k)) = Some (chordText m k).
Proof.
  intros Hm Hk. unfold numericChord.
  rewrite convert_join by apply numberToString_no_comma.
  rewrite !parseInt_numberToString by assumption. cbn [isNaN orb].
  now rewrite codedChord_chordText.
Qed.


(** The conversions listed in the header of the converter. *)
Example convert_alt_8 :
  convertNumericShortcutToString (Str "4,56") = Some "A+8".
Proof. reflexivity. Qed.

Example convert_shift_ctrl_1 :
  convertNumericShortcutToString (Str "3,49") = Some "SC+1".
Proof. reflexivity. Qed.

Example convert_shift_alt_n :
  convertNumericShortcutToString (Str "5,78") = Some "SA+n".
Proof. reflexivity. Qed.

Example convert_special_key :
  convertNumericShortcutToString (Str "0,112") = Some "112".
Proof. reflexivity. Qed.

Example numberToString_samples :
  numberToString 0 = "0" /\ numberToString 56 = "56"
  /\ numberToString (-5) = "-5" /\ numberToString 1000 = "1000".
Proof. repeat split; reflexivity. Qed.

(** Beyond the safe integers [parseInt] rounds and [String] shortens. *)
Example numbers_beyond_safe_integers :
  parseInt "9007199254740993" = Fin 9007199254740992
  /\ numberToString (10 ^ 21) = "1e+21"
  /\ numberToString (2 ^ 60) = "1152921504606847000"
  /\ convertNumericShortcutToString (Str "0,1000000000000000000000") = Some "1e+21"
  /\ convertNumericShortcutToString (Str "9007199254740993,65") = Some "a".
Proof. repeat split; vm_compute; reflexivity. Qed.

End Converter.

(** ** Properties of the lifecycle *)

Section Lifecycle.

Import Js.

#[local] Opaque convertNumericShortcutToString.

Lemma storageKeyOf_inj i j : storageKeyOf i = storageKeyOf j -> i = j.
Proof. destruct i, j; intros H; try reflexivity; discriminate H. Qed.

Lemma idOf_inj i j : idOf i = idOf j -> i = j.
Proof. destruct i, j; intros H; try reflexivity; discriminate H. Qed.


Lemma strictEq_Str_refl c : strictEq (Str c) (Str c) = true.
Proof. apply String.eqb_refl. Qed.

Lemma truthy_ofOption (o : option string) :
  truthy (ofOption o) = true -> exists c, o = Some c /\ c <> "".
Proof.
  destruct o as [c|]; [|discriminate]. intros H. exists c. split; [reflexivity|].
  intros ->. discriminate H.
Qed.

(** *** The four startups *)

Lemma initializeShortcut1_shape :
  exists name description, forall st,
    Action1.initializeShortcut1 st =
    if startupThrows Demo1 (localStorage st)
    then Thrown (callSdk (deleteShortcut Action1.shortcutId) st)
    else Normal
           (mkState (localStorage st)
              (sdkCalls st ++ startupCalls Action1.shortcutId name description None
                                (loadSavedConfig Action1.storageKey (localStorage st)))
              (lastSavedKeys2 st) (lastSavedKeys4 st) (initialized st ++ [Demo1])).
Proof.
  do 2 eexists. intros st.
  unfold Action1.initializeShortcut1, startupThrows, savedKeys, startupCalls,
    shortcutKeysToUse. cbn [storageKeyOf].
  destruct (truthy _); cbn [andb]; [destruct (toStringThrows _)|];
    unfold callSdk, exposeHooks;
    cbn [localStorage sdkCalls lastSavedKeys2 lastSavedKeys4 initialized];
    rewrite <- ?app_assoc; reflexivity.
Qed.

Lemma initializeShortcut2_shape :
  exists name description, forall st,
    Action2.initializeShortcut2 st =
    mkState (localStorage st)
      (sdkCalls st ++ startupCalls Action2.shortcutId name description
                        (Some Action2.HARDCODED_DEFAULT)
                        (loadSavedConfig Action2.storageKey (localStorage st)))
      (logicalOr (savedKeys Demo2 (localStorage st)) Null) (lastSavedKeys4 st)
      (initialized st ++ [Demo2]).
Proof.
  do 2 eexists. intros st.
  unfold Action2.initializeShortcut2, startupCalls, shortcutKeysToUse, savedKeys,
    logicalOr. cbn [storageKeyOf].
  destruct (truthy _); unfold callSdk, setLastSavedKeys2, exposeHooks;
    cbn [localStorage sdkCalls lastSavedKeys2 lastSavedKeys4 initialized];
    rewrite <- ?app_assoc; reflexivity.
Qed.

Lemma initializeShortcut3_shape :
  exists name description, forall st,
    Action3.initializeShortcut3 st =
    mkState (localStorage st)
      (sdkCalls st ++ startupCalls Action3.shortcutId name description
                        (Some Action3.HARDCODED_DEFAULT)
                        (loadSavedConfig Action3.storageKey (localStorage st)))
      (lastSavedKeys2 st) (lastSavedKeys4 st) (initialized st ++ [Demo3]).
Proof.
  do 2 eexists. intros st.
  unfold Action3.initializeShortcut3, startupCalls, shortcutKeysToUse.
  destruct (truthy _); unfold callSdk, exposeHooks;
    cbn [localStorage sdkCalls lastSavedKeys2 lastSavedKeys4 initialized];
    rewrite <- ?app_assoc; reflexivity.
Qed.

Lemma initializeShortcut4_shape :
  exists name description, forall st,
    Action4.initializeShortcut4 st =
    if startupThrows Demo4 (localStorage st)
    then Thrown (callSdk (deleteShortcut Action4.shortcutId) st)
    else Normal
           (mkState (localStorage st)
              (sdkCalls st ++ startupCalls Action4.shortcutId name description None
                                (loadSavedConfig Action4.storageKey (localStorage st)))
              (lastSavedKeys2 st) (logicalOr (savedKeys Demo4 (localStorage st)) Null)
              (initialized st ++ [Demo4])).
Proof.
  do 2 eexists. intros st.
  unfold Action4.initializeShortcut4, startupThrows, savedKeys, startupCalls,
    shortcutKeysToUse, logicalOr. cbn [storageKeyOf].
  destruct (truthy _); cbn [andb]; [destruct (toStringThrows _)|];
    unfold callSdk, setLastSavedKeys4, exposeHooks;
    cbn [localStorage sdkCalls lastSavedKeys2 lastSavedKeys4 initialized];
    rewrite <- ?app_assoc; reflexivity.
Qed.

(** A page load, by what the startups of shortcuts 1 and 4 do. *)
Lemma pageLoad_shape :
  exists n1 d1 n2 d2 n3 d3 n4 d4, forall storage,
    pageLoad storage =
    if startupThrows Demo1 storage
    then mkState storage [deleteShortcut Action1.shortcutId]
           Undefined Undefined []
    else
      let reached :=
        startupCalls Action1.shortcutId n1 d1 None
          (loadSavedConfig Action1.storageKey storage)
        ++ startupCalls Action2.shortcutId n2 d2 (Some Action2.HARDCODED_DEFAULT)
             (loadSavedConfig Action2.storageKey storage)
        ++ startupCalls Action3.shortcutId n3 d3 (Some Action3.HARDCODED_DEFAULT)
             (loadSavedConfig Action3.storageKey storage) in
      if startupThrows Demo4 storage
      then mkState storage (reached ++ [deleteShortcut Action4.shortcutId])
             (logicalOr (savedKeys Demo2 storage) Null) Undefined
             [Demo1; Demo2; Demo3]
      else mkState storage
             (reached ++ startupCalls Action4.shortcutId n4 d4 None
                           (loadSavedConfig Action4.storageKey storage))
             (logicalOr (savedKeys Demo2 storage) Null)
             (logicalOr (savedKeys Demo4 storage) Null)
             [Demo1; Demo2; Demo3; Demo4].
Proof.
  destruct initializeShortcut1_shape as (n1 & d1 & H1).
  destruct initializeShortcut2_shape as (n2 & d2 & H2).
  destruct initializeShortcut3_shape as (n3 & d3 & H3).
  destruct initializeShortcut4_shape as (n4 & d4 & H4).
  exists n1, d1, n2, d2, n3, d3, n4, d4. intros storage.
  unfold pageLoad, initializeShortcuts, freshPage. rewrite H1.
  cbn [localStorage]. destruct (startupThrows Demo1 storage); [reflexivity|].
  rewrite H2, H3, H4. cbn [localStorage sdkCalls lastSavedKeys2 lastSavedKeys4 initialized].
  cbv zeta. destruct (startupThrows Demo4 storage); cbn [stateOf];
    unfold callSdk; cbn [localStorage sdkCalls lastSavedKeys2 lastSavedKeys4 initialized app];
    rewrite <- ?app_assoc; reflexivity.
Qed.

Lemma pageLoad_storage storage : localStorage (pageLoad storage) = storage.
Proof.
  destruct pageLoad_shape as (n1 & d1 & n2 & d2 & n3 & d3 & n4 & d4 & H).
  rewrite H. cbv zeta.
  destruct (startupThrows Demo1 storage); [reflexivity|].
  now destruct (startupThrows Demo4 storage).
Qed.

Lemma pageLoad_initialized storage i :
  isInitialized i (pageLoad storage)
  = reaches i storage && negb (startupThrows i storage).
Proof.
  destruct pageLoad_shape as (n1 & d1 & n2 & d2 & n3 & d3 & n4 & d4 & H).
  rewrite H. cbv zeta. unfold reaches.
  destruct (startupThrows Demo1 storage) eqn:E1;
    [destruct i; rewrite ?E1; reflexivity|].
  destruct (startupThrows Demo4 storage) eqn:E4;
    destruct i; rewrite ?E1, ?E4; reflexivity.
Qed.

Lemma pageLoad_lastSavedKeys a storage :
  isInitialized (instanceOf a) (pageLoad storage) = true ->
  lastSavedKeys a (pageLoad storage)
  = logicalOr (savedKeys (instanceOf a) storage) Null.
Proof.
  rewrite pageLoad_initialized.
  destruct pageLoad_shape as (n1 & d1 & n2 & d2 & n3 & d3 & n4 & d4 & H).
  rewrite H. cbv zeta. unfold reaches.
  destruct (startupThrows Demo1 storage) eqn:E1; [now destruct a|].
  destruct a; cbn [instanceOf].
  - now destruct (startupThrows Demo4 storage).
  - destruct (startupThrows Demo4 storage); [discriminate | reflexivity].
Qed.

Lemma registeredKeys_app id l1 l2 :
  registeredKeys id (l1 ++ l2) =
  match registeredKeys id l2 with
  | Some k => Some k
  | None => registeredKeys id l1
  end.
Proof.
  induction l1 as [|[d|args] l1 IH]; cbn [app registeredKeys].
  - now destruct (registeredKeys id l2).
  - exact IH.
  - rewrite IH. now destruct (registeredKeys id l2).
Qed.

Lemma registeredKeys_startupCalls id id' n d def cfg :
  registeredKeys id (startupCalls id' n d def cfg) =
  if String.eqb id' id then Some (shortcutKeysToUse def cfg) else None.
Proof.
  unfold startupCalls. rewrite registeredKeys_app. cbn [registeredKeys shortcutId shortcutKeys].
  destruct (String.eqb id' id); [reflexivity|].
  now destruct (truthy _).
Qed.

(** What a page load asks to register for shortcut [i]: the chord of step
    3 if the load gets to the shortcut and its startup does not throw,
    nothing otherwise. *)
Lemma pageLoad_registeredKeys storage i :
  registeredKeys (idOf i) (sdkCalls (pageLoad storage)) =
  if reaches i storage && negb (startupThrows i storage)
  then Some (shortcutKeysToUse (defaultOf i)
               (loadSavedConfig (storageKeyOf i) storage))
  else None.
Proof.
  destruct pageLoad_shape as (n1 & d1 & n2 & d2 & n3 & d3 & n4 & d4 & H).
  rewrite H. cbv zeta. unfold reaches.
  destruct (startupThrows Demo1 storage) eqn:E1;
    [destruct i; rewrite ?E1; reflexivity|].
  destruct (startupThrows Demo4 storage) eqn:E4; cbn [sdkCalls];
    rewrite !registeredKeys_app, ?registeredKeys_startupCalls;
    destruct i; rewrite ?E1, ?E4; reflexivity.
Qed.

Lemma In_delete_startupCalls id id' n d def cfg :
  In (deleteShortcut id) (startupCalls id' n d def cfg)
  <-> id' = id /\ truthy (optShortcutKeys cfg) = true.
Proof.
  unfold startupCalls. destruct (truthy _); cbn [In app]; split.
  - intros [H | [H | []]]; [injection H as ->; now split | discriminate H].
  - intros [-> _]. now left.
  - intros [H | []]. discriminate H.
  - intros [_ H]. discriminate H.
Qed.

Lemma startupThrows_truthy i storage :
  startupThrows i storage = true -> truthy (savedKeys i storage) = true.
Proof.
  destruct i; cbn [startupThrows]; intros H; try discriminate H;
    now apply andb_prop in H as [H _].
Qed.

(** A page load asks for the deregistration of a shortcut exactly when it
    gets to the shortcut and finds truthy keys saved. *)
Lemma pageLoad_deletes_iff storage i :
  In (deleteShortcut (idOf i)) (sdkCalls (pageLoad storage))
  <-> truthy (savedKeys i storage) = true /\ reaches i storage = true.
Proof.
  destruct pageLoad_shape as (n1 & d1 & n2 & d2 & n3 & d3 & n4 & d4 & H).
  rewrite H. cbv zeta. unfold reaches.
  pose proof (startupThrows_truthy Demo1 storage) as T1.
  pose proof (startupThrows_truthy Demo4 storage) as T4.
  unfold savedKeys in *.
  destruct (startupThrows Demo1 storage) eqn:E1.
  - cbn [sdkCalls In]. destruct i; cbn [idOf storageKeyOf negb] in *; split;
      try (intros [E | []]; discriminate E);
      try (intros [_ E]; discriminate E).
    + intros _. split; [now apply T1 | reflexivity].
    + intros _. now left.
  - destruct (startupThrows Demo4 storage) eqn:E4; cbn [sdkCalls];
      rewrite !in_app_iff, !In_delete_startupCalls; cbn [In negb];
      destruct i; cbn [idOf storageKeyOf] in *; split;
      try (intros [[[E ?] | [[E ?] | [E ?]]] | [E | []]]; try discriminate E;
           split; [first [assumption | now apply T4] | reflexivity]);
      try (intros [[[E ?] | [[E ?] | [E ?]]] | [E ?]]; try discriminate E;
           split; [assumption | reflexivity]);
      intros [Ht _]; tauto.
Qed.

Lemma shortcutKeysToUse_truthy def cfg :
  truthy (optShortcutKeys cfg) = true ->
  shortcutKeysToUse def cfg = convertNumericShortcutToString (optShortcutKeys cfg).
Proof. intros H. unfold shortcutKeysToUse. rewrite H. apply orNull_convert. Qed.

Lemma shortcutKeysToUse_falsy def cfg :
  truthy (optShortcutKeys cfg) = false -> shortcutKeysToUse def cfg = def.
Proof. intros H. unfold shortcutKeysToUse. now rewrite H. Qed.

(** The startup protocol of one shortcut on a fresh page. *)
Lemma startup_shape i :
  exists name description, forall storage,
    startup i storage =
    if startupThrows i storage
    then Thrown (mkState storage [deleteShortcut (idOf i)] Undefined Undefined [])
    else Normal
           (mkState storage
              (startupCalls (idOf i) name description (defaultOf i)
                 (loadSavedConfig (storageKeyOf i) storage))
              (match i with
               | Demo2 => logicalOr (savedKeys Demo2 storage) Null
               | _ => Undefined
               end)
              (match i with
               | Demo4 => logicalOr (savedKeys Demo4 storage) Null
               | _ => Undefined
               end)
              [i]).
Proof.
  destruct initializeShortcut1_shape as (n1 & d1 & H1).
  destruct initializeShortcut2_shape as (n2 & d2 & H2).
  destruct initializeShortcut3_shape as (n3 & d3 & H3).
  destruct initializeShortcut4_shape as (n4 & d4 & H4).
  destruct i; [exists n1, d1 | exists n2, d2 | exists n3, d3 | exists n4, d4];
    intros storage; unfold startup, initialize, freshPage;
    rewrite ?H1, ?H2, ?H3, ?H4; cbn [localStorage startupThrows];
    try reflexivity;
    destruct (startupThrows _ storage); reflexivity.
Qed.

Lemma startup_registeredKeys i storage :
  startupThrows i storage = false ->
  completes (startup i storage) = true
  /\ registeredKeys (idOf i) (sdkCalls (stateOf (startup i storage)))
     = Some (shortcutKeysToUse (defaultOf i)
               (loadSavedConfig (storageKeyOf i) storage)).
Proof.
  intros Hno. destruct (startup_shape i) as (n & d & H). rewrite H, Hno.
  cbn [completes stateOf sdkCalls]. split; [reflexivity|].
  now rewrite registeredKeys_startupCalls, String.eqb_refl.
Qed.


Lemma startupThrows_lookup i (s1 s2 : gmap string StoredText) :
  s1 !! storageKeyOf i = s2 !! storageKeyOf i ->
  startupThrows i s1 = startupThrows i s2.
Proof.
  intros H. unfold startupThrows, savedKeys, loadSavedConfig. now rewrite H.
Qed.

Lemma startup_lookup i (s1 s2 : gmap string StoredText) :
  s1 !! storageKeyOf i = s2 !! storageKeyOf i ->
  sdkCalls (stateOf (startup i s1)) = sdkCalls (stateOf (startup i s2))
  /\ completes (startup i s1) = completes (startup i s2).
Proof.
  intros H. destruct (startup_shape i) as (n & d & Hs). rewrite !Hs.
  rewrite (startupThrows_lookup _ _ _ H).
  unfold loadSavedConfig. rewrite H.
  now destruct (startupThrows i s2).
Qed.

(** *** Storage *)



Lemma loadSavedConfig_delete key (storage : gmap string StoredText) :
  loadSavedConfig key (delete key storage) = Null.
Proof. unfold loadSavedConfig. now rewrite lookup_delete_eq. Qed.

Lemma loadSavedConfig_lookup key (s1 s2 : gmap string StoredText) :
  s1 !! key = s2 !! key -> loadSavedConfig key s1 = loadSavedConfig key s2.
Proof. intros H. unfold loadSavedConfig. now rewrite H. Qed.

Lemma savedKeys_lookup i (s1 s2 : gmap string StoredText) :
  s1 !! storageKeyOf i = s2 !! storageKeyOf i -> savedKeys i s1 = savedKeys i s2.
Proof. intros H. unfold savedKeys. now rewrite (loadSavedConfig_lookup _ _ _ H). Qed.

Lemma startupThrows_keys i (s1 s2 : gmap string StoredText) :
  savedKeys i s1 = savedKeys i s2 -> startupThrows i s1 = startupThrows i s2.
Proof. intros H. unfold startupThrows. now rewrite H. Qed.


Lemma startupThrows_falsy i storage :
  truthy (savedKeys i storage) = false -> startupThrows i storage = false.
Proof. intros H. unfold startupThrows. rewrite H. now destruct i. Qed.

(** What each save hook does to the storage. *)
Lemma save_storage i allShortcuts st :
  localStorage (save i allShortcuts st) =
  match findShortcut (idOf i) allShortcuts with
  | None => localStorage st
  | Some shortcut =>
      match i with
      | Demo3 =>
          if truthy (ofOption (shortcutKeys shortcut))
          then <[storageKeyOf i := JSON_stringify (configToSave shortcut)]> (localStorage st)
          else localStorage st
      | _ => <[storageKeyOf i := JSON_stringify (configToSave shortcut)]> (localStorage st)
      end
  end.
Proof.
  destruct i; cbn [save idOf storageKeyOf];
    unfold Action1.saveDemoShortcut1, Action2.saveDemoShortcut2,
      Action3.saveDemoShortcut3, Action4.saveDemoShortcut4;
    destruct (findShortcut _ allShortcuts) as [sc|]; try reflexivity.
  now destruct (truthy _).
Qed.

Lemma save_initialized i allShortcuts st :
  initialized (save i allShortcuts st) = initialized st.
Proof.
  destruct i; cbn [save];
    unfold Action1.saveDemoShortcut1, Action2.saveDemoShortcut2,
      Action3.saveDemoShortcut3, Action4.saveDemoShortcut4;
    destruct (findShortcut _ allShortcuts); try reflexivity.
  now destruct (negb _).
Qed.

Lemma reset_storage i st :
  localStorage (reset i st) = delete (storageKeyOf i) (localStorage st).
Proof. now destruct i. Qed.

(** *** Ticks *)

Lemma tick_unfold a allShortcuts st :
  tick a allShortcuts st =
  if isInitialized (instanceOf a) st then
    match findShortcut (idOf (instanceOf a)) allShortcuts with
    | Some shortcut =>
        if truthy (ofOption (shortcutKeys shortcut)) then
          if negb (strictEq (ofOption (shortcutKeys shortcut)) (lastSavedKeys a st))
          then setLastSavedKeys a (ofOption (shortcutKeys shortcut))
                 (setItem (storageKeyOf (instanceOf a))
                    (JSON_stringify (configToSave shortcut)) st)
          else st
        else st
    | None => st
    end
  else st.
Proof. destruct a; reflexivity. Qed.

Lemma save_auto_unfold a allShortcuts st :
  save (instanceOf a) allShortcuts st =
  match findShortcut (idOf (instanceOf a)) allShortcuts with
  | None => st
  | Some shortcut =>
      setLastSavedKeys a (ofOption (shortcutKeys shortcut))
        (setItem (storageKeyOf (instanceOf a))
           (JSON_stringify (configToSave shortcut)) st)
  end.
Proof. destruct a; reflexivity. Qed.

Lemma localStorage_setLastSavedKeys a v st :
  localStorage (setLastSavedKeys a v st) = localStorage st.
Proof. now destruct a. Qed.

Lemma sdkCalls_setLastSavedKeys a v st :
  sdkCalls (setLastSavedKeys a v st) = sdkCalls st.
Proof. now destruct a. Qed.

Lemma lastSavedKeys_setLastSavedKeys a v st :
  lastSavedKeys a (setLastSavedKeys a v st) = v.
Proof. now destruct a. Qed.


Lemma lastSavedKeys_reset a i st : lastSavedKeys a (reset i st) = lastSavedKeys a st.
Proof. now destruct a, i. Qed.

Lemma isInitialized_reset i j st : isInitialized i (reset j st) = isInitialized i st.
Proof. now destruct j. Qed.

Lemma tick_storage a allShortcuts st :
  localStorage (tick a allShortcuts st) = localStorage st
  \/ exists shortcut,
       findShortcut (idOf (instanceOf a)) allShortcuts = Some shortcut
       /\ truthy (ofOption (shortcutKeys shortcut)) = true
       /\ localStorage (tick a allShortcuts st)
          = <[storageKeyOf (instanceOf a) := JSON_stringify (configToSave shortcut)]>
              (localStorage st).
Proof.
  rewrite tick_unfold. destruct (isInitialized _ st); [|now left].
  destruct (findShortcut _ allShortcuts) as [sc|] eqn:Hfind; [|now left].
  destruct (truthy _) eqn:Ht; [|now left]. destruct (negb _); [|now left].
  right. exists sc. split; [reflexivity|]. split; [exact Ht|].
  now rewrite localStorage_setLastSavedKeys.
Qed.

(** *** Operations *)

(** An operation of shortcut [i] leaves the key of [i] as it was, deletes it
    or stores the record of a live registration found under the id of [i]. *)
Lemma run_own_key op i st :
  opInstance op = Some i ->
  localStorage (run op st) = localStorage st
  \/ localStorage (run op st) = delete (storageKeyOf i) (localStorage st)
  \/ exists allShortcuts shortcut,
       findShortcut (idOf i) allShortcuts = Some shortcut
       /\ (op = Save i allShortcuts \/ truthy (ofOption (shortcutKeys shortcut)) = true)
       /\ localStorage (run op st)
          = <[storageKeyOf i := JSON_stringify (configToSave shortcut)]>
              (localStorage st).
Proof.
  destruct op as [|j allShortcuts|j|a allShortcuts]; cbn [opInstance run];
    intros H; try discriminate H; injection H as <-.
  - destruct (isInitialized j st); [|now left]. rewrite save_storage.
    destruct (findShortcut (idOf j) allShortcuts) as [sc|] eqn:Hfind; [|now left].
    destruct j; try (right; right; exists allShortcuts, sc; now auto).
    destruct (truthy _); [right; right; exists allShortcuts, sc; now auto | now left].
  - destruct (isInitialized j st); [|now left]. right. left. apply reset_storage.
  - destruct (tick_storage a allShortcuts st) as [H | (sc & Hfind & Ht & H)]; [now left|].
    right. right. exists allShortcuts, sc. now auto.
Qed.

Lemma run_other_keys op i key st :
  opInstance op = Some i -> key <> storageKeyOf i ->
  localStorage (run op st) !! key = localStorage st !! key.
Proof.
  intros Hop Hkey.
  destruct (run_own_key op i st Hop) as [-> | [-> | (all & sc & _ & _ & ->)]].
  - reflexivity.
  - apply lookup_delete_ne. congruence.
  - apply lookup_insert_ne. congruence.
Qed.

Lemma run_sdkCalls op st : isReload op = false -> sdkCalls (run op st) = sdkCalls st.
Proof.
  destruct op as [|i allShortcuts|i|a allShortcuts]; cbn [isReload run];
    intros H; try discriminate H.
  - destruct (isInitialized i st); [|reflexivity].
    destruct i; cbn [save];
      unfold Action1.saveDemoShortcut1, Action2.saveDemoShortcut2,
        Action3.saveDemoShortcut3, Action4.saveDemoShortcut4;
      destruct (findShortcut _ allShortcuts); try reflexivity.
    now destruct (negb _).
  - destruct (isInitialized i st); [|reflexivity]. now destruct i.
  - rewrite tick_unfold. destruct (isInitialized _ st); [|reflexivity].
    destruct (findShortcut _ allShortcuts); [|reflexivity].
    destruct (truthy _); [|reflexivity]. destruct (negb _); [|reflexivity].
    now rewrite sdkCalls_setLastSavedKeys.
Qed.

Lemma ownKey_storageKeyOf i : ownKey (storageKeyOf i) = true.
Proof. now destruct i. Qed.

Lemma findShortcut_id id allShortcuts shortcut :
  findShortcut id allShortcuts = Some shortcut -> shortcutId shortcut = id.
Proof.
  unfold findShortcut. intros H. apply find_some in H as [_ H].
  now apply String.eqb_eq in H.
Qed.

Lemma keysNotNull_config shortcut c :
  shortcutKeys shortcut = Some c ->
  keysNotNull (JSON_stringify (configToSave shortcut)) = true.
Proof. intros H. cbn. now rewrite H. Qed.

Lemma recordId_configToSave shortcut :
  recordId (configToSave shortcut) = Str (shortcutId shortcut).
Proof. reflexivity. Qed.

Lemma run_keeps_keys_non_null op st :
  savesWithoutKeys op = false ->
  storageInvariant (localStorage st) ->
  storageInvariant (localStorage (run op st)).
Proof.
  unfold storageInvariant. intros Hop Hinv.
  destruct op as [|i allShortcuts|i|a allShortcuts]; cbn [run].
  - now rewrite pageLoad_storage.
  - destruct (isInitialized i st); [|assumption]. rewrite save_storage.
    destruct (findShortcut (idOf i) allShortcuts) as [sc|] eqn:Hfind; [|assumption].
    destruct i; cbn [savesWithoutKeys] in Hop; try rewrite Hfind in Hop;
      try (destruct (shortcutKeys sc) as [c|] eqn:Hk; [|discriminate];
           apply map_Forall_insert_2; [now apply (keysNotNull_config _ c)|assumption]).
    destruct (truthy (ofOption (shortcutKeys sc))) eqn:Ht; [|assumption].
    apply truthy_ofOption in Ht as (c & Hk & _).
    apply map_Forall_insert_2; [now apply (keysNotNull_config _ c)|assumption].
  - destruct (isInitialized i st); [|assumption].
    rewrite reset_storage. now apply map_Forall_delete.
  - destruct (tick_storage a allShortcuts st) as [-> | (sc & _ & Ht & ->)];
      [assumption|].
    apply truthy_ofOption in Ht as (c & Hk & _).
    apply map_Forall_insert_2; [now apply (keysNotNull_config _ c)|assumption].
Qed.

Lemma run_keeps_record_ids op st :
  recordsNameTheirShortcut (localStorage st) ->
  recordsNameTheirShortcut (localStorage (run op st)).
Proof.
  unfold recordsNameTheirShortcut. intros Hinv.
  destruct (opInstance op) as [i|] eqn:Hi.
  - intros j cfg.
    destruct (run_own_key op i st Hi)
      as [-> | [-> | (all & sc & Hfind & _ & ->)]].
    + apply Hinv.
    + destruct (decide (storageKeyOf i = storageKeyOf j)) as [E | E].
      * rewrite E, lookup_delete_eq. discriminate.
      * rewrite lookup_delete_ne by exact E. apply Hinv.
    + destruct (decide (storageKeyOf i = storageKeyOf j)) as [E | E].
      * rewrite E, lookup_insert_eq. intros [= <-].
        rewrite recordId_configToSave, (findShortcut_id _ _ _ Hfind).
        now rewrite (storageKeyOf_inj _ _ E).
      * rewrite lookup_insert_ne by exact E. apply Hinv.
  - destruct op; try discriminate Hi. cbn [run]. now rewrite pageLoad_storage.
Qed.

Lemma createdIds_app l1 l2 : createdIds (l1 ++ l2) = createdIds l1 ++ createdIds l2.
Proof.
  induction l1 as [|[d|args] l1 IH]; cbn [app createdIds]; [reflexivity|exact IH|].
  now rewrite IH.
Qed.

Lemma createdIds_startupCalls id n d def cfg :
  createdIds (startupCalls id n d def cfg) = [id].
Proof. unfold startupCalls. now destruct (truthy _). Qed.

End Lifecycle.

(** ** The claims of the specification *)

Section Claims.

Import Js.

#[local] Arguments String.append !s1 s2 /.

(** C1.  For a modifier mask [m] in 0..7 and a key code [k] among the safe
    integers, decoding the numeric chord ["m,k"] gives the modifier letters,
    one per set mask bit in a fixed order, then a ['+'] when there is a
    letter, then the key: the digit for the codes 48..57, the lowercase
    letter for the codes 65..90 and the decimal numeral of the code
    otherwise. *)
Theorem decode_numeric_chord (m k : Z) :
  0 <= m <= 7 ->
  safeInteger k ->
  convertNumericShortcutToString (Str (numericChord m k)) = Some (chordText m k).
Proof.
  intros Hm Hk. apply convert_numericChord; [|assumption].
  unfold safeInteger. change (2 ^ 53) with 9007199254740992. lia.
Qed.

Lemma decode_numeric_chord_witness :
  0 <= 4 <= 7 /\ safeInteger 56 /\
  convertNumericShortcutToString (Str (numericChord 4 56)) = Some (chordText 4 56).
Proof.
  assert (safeInteger 56) as Hk by (unfold safeInteger; lia).
  split; [lia|]. split; [exact Hk|].
  apply (decode_numeric_chord 4 56); [lia | exact Hk].
Defined.

(** C2.  The converter is total and answers [null] on every input that is
    not a string of exactly two comma-separated integer-parsable tokens; so
    it does on [null], on the empty string, on ["1,2,3"] and on ["a,b"]. *)
Theorem decode_rejects_malformed :
  (forall v, twoIntegerTokens v = false ->
             convertNumericShortcutToString v = None)
  /\ convertNumericShortcutToString Null = None
  /\ convertNumericShortcutToString (Str "") = None
  /\ convertNumericShortcutToString (Str "1,2,3") = None
  /\ convertNumericShortcutToString (Str "a,b") = None.
Proof.
  split; [|repeat split; reflexivity].
  intros v H. now apply convert_is_None.
Qed.

Lemma decode_rejects_malformed_witness :
  twoIntegerTokens (Str "1,2,3") = false
  /\ convertNumericShortcutToString (Str "1,2,3") = None.
Proof.
  split; [reflexivity|].
  apply (proj1 decode_rejects_malformed (Str "1,2,3")). reflexivity.
Defined.

(** C5, amended.  On ["2,81"] the converter answers ["C+q"]: mask value 2
    yields the letter of Ctrl, then ['+'] and the lowercase ['q'] of key
    code 81; the letter of Shift is the one of mask value 1. *)
Theorem decode_2_81 :
  convertNumericShortcutToString (Str "2,81") = Some "C+q"
  /\ convertNumericShortcutToString (Str "1,81") = Some "S+q"
  /\ modifierLetters 2 = "C"
  /\ modifierLetters 1 = "S"
  /\ keyText 81 = "q".
Proof. repeat split; reflexivity. Qed.

(** C5 as stated fails: the Shift letter is the one of mask value 1, and
    the answer on ["2,81"] is not that letter, ['+'] and ['q']. *)
Lemma decode_2_81_is_not_shift_q :
  convertNumericShortcutToString (Str "1,0") = Some "S+0"
  /\ convertNumericShortcutToString (Str "2,81") <> Some "S+q".
Proof. split; [reflexivity | vm_compute; discriminate]. Qed.

(** C10.  Each token is read through its leading integer numeral, whatever
    follows it: a chord whose tokens are the numerals of two safe integers
    followed by anything that does not start with a digit and holds no comma
    is accepted and decodes like the chord of the two integers alone, though
    such a token is not an integer numeral.  So ["4x,56"] decodes like
    ["4,56"]. *)
Theorem decode_reads_numeral_prefix :
  (forall m k r0 r1,
      safeInteger m -> safeInteger k ->
      startsWithDigit r0 = false -> countCommas r0 = O ->
      startsWithDigit r1 = false -> countCommas r1 = O ->
      convertNumericShortcutToString
        (Str ((decimal m +:+ r0) +:+ "," +:+ (decimal k +:+ r1)))
      = Some (chordText m k)
      /\ convertNumericShortcutToString
           (Str ((decimal m +:+ r0) +:+ "," +:+ (decimal k +:+ r1)))
         = convertNumericShortcutToString (Str (numericChord m k))
      /\ (r0 <> "" -> integerNumeral (decimal m +:+ r0) = false))
  /\ (forall t rest,
         integerNumeral t = true -> startsWithDigit rest = false ->
         parseInt (t +:+ rest) = parseInt t /\ isNaN (parseInt t) = false)
  /\ integerNumeral "4x" = false
  /\ convertNumericShortcutToString (Str "4x,56") = Some "A+8"
  /\ convertNumericShortcutToString (Str "4,56") = Some "A+8".
Proof.
  split; [|split; [|repeat split; reflexivity]].
  - intros m k r0 r1 Hm Hk Hd0 Hc0 Hd1 Hc1.
    assert (convertNumericShortcutToString
              (Str ((decimal m +:+ r0) +:+ "," +:+ (decimal k +:+ r1)))
            = Some (chordText m k)) as Hconv.
    { rewrite convert_join
        by (rewrite countCommas_app, decimal_no_comma; assumption).
      rewrite !parseInt_decimal_prefix by assumption. cbn [isNaN orb].
      f_equal. now apply codedChord_chordText. }
    split; [exact Hconv|]. split.
    + rewrite Hconv. symmetry. now apply convert_numericChord.
    + intros Hne. destruct r0 as [|c r0]; [congruence|].
      cbn [startsWithDigit] in Hd0.
      assert (forall s, allDigits (s +:+ String c r0) = false) as Hall.
      { intros s. rewrite allDigits_app. cbn [allDigits]. rewrite Hd0.
        apply andb_false_r. }
      unfold decimal. destruct (m <? 0).
      * cbn [String.append integerNumeral].
        change (Ascii.eqb "-" "-") with true. cbv iota.
        rewrite Hall. apply andb_false_r.
      * pose proof (digitsOf_allDigits m) as Hdig.
        pose proof (digitsOf_nonempty m) as Hnon.
        destruct (digitsOf m) as [|d ds] eqn:Ed; [congruence|].
        cbn [allDigits] in Hdig. apply andb_prop in Hdig as [Hd _].
        cbn [String.append integerNumeral].
        destruct (Ascii.eqb_spec d "-") as [->|_]; [discriminate Hd|].
        change (String d (ds +:+ String c r0)) with (String d ds +:+ String c r0).
        apply Hall.
  - intros t rest Ht Hr. destruct t as [|c t]; [discriminate|].
    cbn [integerNumeral] in Ht. destruct (Ascii.eqb_spec c "-") as [->|Hc].
    + apply andb_prop in Ht as [Hne Hd].
      assert (t <> "") as Hne' by (intros ->; discriminate).
      rewrite parseInt_negative by assumption.
      rewrite <- (app_empty_r (String "-" t)).
      rewrite parseInt_negative by easy.
      split; [reflexivity | apply roundToDouble_not_NaN].
    + rewrite parseInt_digits by easy.
      rewrite <- (app_empty_r (String c t)) at 2 3.
      rewrite parseInt_digits by easy.
      split; [reflexivity | apply roundToDouble_not_NaN].
Qed.

Lemma decode_reads_numeral_prefix_witness :
  safeInteger 4 /\ safeInteger 56
  /\ startsWithDigit "x" = false /\ countCommas "x" = O
  /\ startsWithDigit "" = false /\ countCommas "" = O
  /\ convertNumericShortcutToString
       (Str ((decimal 4 +:+ "x") +:+ "," +:+ (decimal 56 +:+ "")))
     = Some (chordText 4 56).
Proof.
  assert (safeInteger 4) as H4 by (unfold safeInteger; lia).
  assert (safeInteger 56) as H56 by (unfold safeInteger; lia).
  split; [exact H4|]. split; [exact H56|].
  split; [reflexivity|]. split; [reflexivity|].
  split; [reflexivity|]. split; [reflexivity|].
  refine (proj1 (proj1 decode_reads_numeral_prefix 4 56 "x" "" H4 H56 _ _ _ _));
    reflexivity.
Defined.



(** C4, amended.  The startup of a shortcut that finds truthy (non-null,
    non-empty) [shortcutKeys] in the stored record and does not throw on
    them registers the shortcut with their decoding, which is no chord when
    the decoding fails; a startup that finds no truthy [shortcutKeys]
    registers the hardcoded default, or no chord when there is none; a
    startup that throws registers nothing.  After a reset the startup
    therefore registers the hardcoded default or no chord, whatever was
    saved before, and so does a page load that gets to the shortcut. *)
Theorem startup_chord_selection (i : Instance) :
  (forall storage,
      let keys := savedKeys i storage in
      (truthy keys = true -> startupThrows i storage = false ->
       completes (startup i storage) = true
       /\ registeredKeys (idOf i) (sdkCalls (stateOf (startup i storage)))
          = Some (convertNumericShortcutToString keys)
       /\ (reaches i storage = true ->
           registeredKeys (idOf i) (sdkCalls (pageLoad storage))
             = Some (convertNumericShortcutToString keys)))
      /\ (truthy keys = false ->
          completes (startup i storage) = true
          /\ registeredKeys (idOf i) (sdkCalls (stateOf (startup i storage)))
             = Some (defaultOf i)
          /\ (reaches i storage = true ->
              registeredKeys (idOf i) (sdkCalls (pageLoad storage))
                = Some (defaultOf i)))
      /\ (startupThrows i storage = true ->
          completes (startup i storage) = false
          /\ registeredKeys (idOf i) (sdkCalls (stateOf (startup i storage)))
             = None))
  /\ (forall st,
         let storage := localStorage (reset i st) in
         completes (startup i storage) = true
         /\ registeredKeys (idOf i) (sdkCalls (stateOf (startup i storage)))
            = Some (defaultOf i)
         /\ (reaches i storage = true ->
             registeredKeys (idOf i) (sdkCalls (pageLoad storage))
               = Some (defaultOf i))).
Proof.
  assert (forall storage,
             truthy (savedKeys i storage) = false ->
             completes (startup i storage) = true
             /\ registeredKeys (idOf i) (sdkCalls (stateOf (startup i storage)))
                = Some (defaultOf i)
             /\ (reaches i storage = true ->
                 registeredKeys (idOf i) (sdkCalls (pageLoad storage))
                   = Some (defaultOf i))) as Hfalsy.
  { intros storage H. pose proof (startupThrows_falsy _ _ H) as Hno.
    destruct (startup_registeredKeys _ _ Hno) as [Hdone Hreg].
    rewrite (shortcutKeysToUse_falsy _ _ H) in Hreg.
    split; [exact Hdone|]. split; [exact Hreg|].
    intros Hreach.
    now rewrite pageLoad_registeredKeys, Hreach, Hno, (shortcutKeysToUse_falsy _ _ H). }
  split.
  - intros storage keys. subst keys. split; [|split; [apply Hfalsy|]].
    + intros H Hno. destruct (startup_registeredKeys _ _ Hno) as [Hdone Hreg].
      rewrite (shortcutKeysToUse_truthy _ _ H) in Hreg.
      split; [exact Hdone|]. split; [exact Hreg|].
      intros Hreach.
      now rewrite pageLoad_registeredKeys, Hreach, Hno,
        (shortcutKeysToUse_truthy _ _ H).
    + intros Hthrow. destruct (startup_shape i) as (n & d & H).
      rewrite H, Hthrow. split; reflexivity.
  - intros st storage. subst storage. apply Hfalsy.
    unfold savedKeys. now rewrite reset_storage, loadSavedConfig_delete.
Qed.

Lemma startup_chord_selection_witness :
  let storage : gmap string StoredText :=
    {[ Action3.storageKey := JSON_stringify (configToSave ctrlQ3) ]} in
  let keys := savedKeys Demo3 storage in
  truthy keys = true
  /\ startupThrows Demo3 storage = false
  /\ completes (startup Demo3 storage) = true
  /\ registeredKeys (idOf Demo3) (sdkCalls (stateOf (startup Demo3 storage)))
     = Some (convertNumericShortcutToString keys)
  /\ (reaches Demo3 storage = true ->
      registeredKeys (idOf Demo3) (sdkCalls (pageLoad storage))
        = Some (convertNumericShortcutToString keys)).
Proof.
  intros storage keys. split; [reflexivity|]. split; [reflexivity|].
  refine (proj1 (proj1 (startup_chord_selection Demo3) storage) _ _);
    reflexivity.
Defined.

(** C4 as stated fails for shortcut 2 on a record whose [shortcutKeys] is
    the empty string: the record has non-null [shortcutKeys], decoding them
    gives [null], and the startup registers the hardcoded default instead
    of no chord. *)
Lemma startup_chord_empty_keys :
  let storage : gmap string StoredText :=
    {[ Action2.storageKey := JsonText (Object [("shortcutKeys", Str "")]) ]} in
  optShortcutKeys (loadSavedConfig Action2.storageKey storage) = Str ""
  /\ convertNumericShortcutToString (Str "") = None
  /\ specStartupChord (defaultOf Demo2)
       (loadSavedConfig Action2.storageKey storage) = None
  /\ registeredKeys Action2.shortcutId
       (sdkCalls (stateOf (startup Demo2 storage)))
     = Some (Some "A+2")
  /\ registeredKeys Action2.shortcutId (sdkCalls (pageLoad storage))
     = Some (Some "A+2").
Proof. repeat split; reflexivity. Qed.

(** C6, amended.  Page loads, resets, auto-save ticks and the save of
    shortcut 3 never write a record whose [shortcutKeys] is [null], and
    neither does a manual save of shortcut 1, 2 or 4 while the live
    registration has keys: along every run made of such operations a storage
    whose records have non-null [shortcutKeys] stays so. *)
Theorem storage_keys_stay_non_null (ops : list Op) (st : State) :
  storageInvariant (localStorage st) ->
  Forall (fun op => savesWithoutKeys op = false) ops ->
  storageInvariant (localStorage (runAll ops st)).
Proof.
  intros Hinv Hops. revert st Hinv. unfold runAll.
  induction Hops as [|op ops Hop _ IH]; intros st Hinv; cbn [fold_left].
  - exact Hinv.
  - apply IH. now apply run_keeps_keys_non_null.
Qed.

Lemma storage_keys_stay_non_null_witness :
  let ops := [Tick Auto2 [shiftX2]; Save Demo3 [emptyChord3]; Reset Demo1; Reload] in
  storageInvariant (localStorage (pageLoad ∅))
  /\ Forall (fun op => savesWithoutKeys op = false) ops
  /\ storageInvariant (localStorage (runAll ops (pageLoad ∅))).
Proof.
  intros ops.
  assert (storageInvariant (localStorage (pageLoad ∅))) as Hinv
    by (rewrite pageLoad_storage; apply map_Forall_empty).
  assert (Forall (fun op => savesWithoutKeys op = false) ops) as Hops
    by (repeat constructor).
  split; [exact Hinv|]. split; [exact Hops|].
  exact (storage_keys_stay_non_null ops (pageLoad ∅) Hinv Hops).
Defined.

(** C6 as stated fails: after a first page load shortcut 1 is registered
    without keys, and its manual save then writes a record whose
    [shortcutKeys] is [null]. *)
Lemma manual_save_writes_null_keys :
  let st := run (Save Demo1 [noChord1]) (pageLoad ∅) in
  storageInvariant (localStorage (pageLoad ∅))
  /\ localStorage st !! Action1.storageKey
     = Some (JSON_stringify (configToSave noChord1))
  /\ optShortcutKeys (configToSave noChord1) = Null
  /\ ~ storageInvariant (localStorage st).
Proof.
  split; [rewrite pageLoad_storage; apply map_Forall_empty|].
  split; [reflexivity|]. split; [reflexivity|].
  intros H. specialize (H Action1.storageKey _ eq_refl). discriminate H.
Qed.





(** C9.  A reset deletes the value at the shortcut's storage key and changes
    nothing else: every other storage key, among them the keys of the other
    shortcuts, keeps its value, no call is made to the host, so that the live
    registrations stay as they are, and the [lastSavedKeys] variables are
    untouched.  Resetting when the key is absent changes nothing, and a second
    reset changes nothing more. *)
Theorem reset_semantics (i : Instance) (st : State) :
  localStorage (reset i st) = delete (storageKeyOf i) (localStorage st)
  /\ localStorage (reset i st) !! storageKeyOf i = None
  /\ (forall key, key <> storageKeyOf i ->
                  localStorage (reset i st) !! key = localStorage st !! key)
  /\ (forall j, j <> i ->
                localStorage (reset i st) !! storageKeyOf j
                  = localStorage st !! storageKeyOf j)
  /\ sdkCalls (reset i st) = sdkCalls st
  /\ lastSavedKeys2 (reset i st) = lastSavedKeys2 st
  /\ lastSavedKeys4 (reset i st) = lastSavedKeys4 st
  /\ (localStorage st !! storageKeyOf i = None -> reset i st = st)
  /\ reset i (reset i st) = reset i st.
Proof.
  assert (forall s, reset i s = removeItem (storageKeyOf i) s) as Hr
    by (destruct i; reflexivity).
  rewrite !Hr. unfold removeItem.
  cbn [localStorage sdkCalls lastSavedKeys2 lastSavedKeys4 initialized].
  repeat split.
  - apply lookup_delete_eq.
  - intros key Hkey. now apply lookup_delete_ne.
  - intros j Hj. apply lookup_delete_ne. intros H. apply storageKeyOf_inj in H. congruence.
  - intros Habsent. rewrite (delete_id _ _ Habsent). now destruct st.
  - now rewrite delete_delete_eq.
Qed.

Lemma reset_semantics_witness :
  localStorage (pageLoad ∅) !! storageKeyOf Demo2 = None
  /\ reset Demo2 (pageLoad ∅) = pageLoad ∅.
Proof.
  split; [reflexivity|].
  refine (proj1 (proj2 (proj2 (proj2 (proj2 (proj2 (proj2 (proj2
            (reset_semantics Demo2 (pageLoad ∅))))))))) _).
  reflexivity.
Defined.

End Claims.

(** ** Further properties of the converter *)

Section ConverterResults.

Import Js.

(** X1.  On every string of two comma-separated integer-parsable tokens the
    converter answers a chord, never the empty string; when the token after
    the comma reads as a safe integer, the chord is the chord text of the
    two numbers [parseInt] reads, whatever surrounds the numerals. *)
Theorem decode_accepted_input (s : string) :
  twoIntegerTokens (Str s) = true ->
  exists chord,
    convertNumericShortcutToString (Str s) = Some chord
    /\ chord <> ""
    /\ forall m k,
         parseInt (beforeComma s) = Fin m -> parseInt (afterComma s) = Fin k ->
         safeInteger k ->
         chord = chordText m k.
Proof.
  cbn [twoIntegerTokens]. intros H.
  apply andb_prop in H as [H Hk]. apply andb_prop in H as [Hc Hm].
  apply Nat.eqb_eq in Hc.
  assert (isNaN (parseInt (beforeComma s)) = false) as Em
    by now rewrite isNaN_parseInt, Hm.
  assert (isNaN (parseInt (afterComma s)) = false) as Ek
    by now rewrite isNaN_parseInt, Hk.
  exists (codedChord (parseInt (beforeComma s)) (parseInt (afterComma s))).
  assert (convertNumericShortcutToString (Str s)
          = Some (codedChord (parseInt (beforeComma s)) (parseInt (afterComma s))))
    as Hconv
    by now rewrite (convert_parts _ _ _ (split_one_comma _ Hc)), Em, Ek.
  split; [exact Hconv|]. split.
  - intros Hempty. rewrite Hempty in Hconv. now apply convert_nonempty in Hconv.
  - intros m k -> -> Hsafe. now apply codedChord_chordText.
Qed.

Lemma decode_accepted_input_witness :
  twoIntegerTokens (Str " 12 , +65x") = true
  /\ exists chord,
       convertNumericShortcutToString (Str " 12 , +65x") = Some chord
       /\ chord <> ""
       /\ forall m k,
            parseInt (beforeComma " 12 , +65x") = Fin m ->
            parseInt (afterComma " 12 , +65x") = Fin k ->
            safeInteger k ->
            chord = chordText m k.
Proof.
  split; [reflexivity|].
  apply (decode_accepted_input " 12 , +65x"). reflexivity.
Defined.

(** X2.  Only the three low bits of the modifier mask count: for every safe
    integer mask, negative ones included, and every safe integer key code
    the numeric chord decodes as the chord whose mask is reduced modulo
    8. *)
Theorem decode_reads_mask_modulo_8 (m k : Z) :
  safeInteger m ->
  safeInteger k ->
  convertNumericShortcutToString (Str (numericChord m k))
    = Some (chordText (m mod 8) k)
  /\ convertNumericShortcutToString (Str (numericChord m k))
     = convertNumericShortcutToString (Str (numericChord (m mod 8) k)).
Proof.
  intros Hm Hk.
  assert (safeInteger (m mod 8)) as Hm8.
  { pose proof (Z.mod_pos_bound m 8 ltac:(lia)) as H. unfold safeInteger.
    change (2 ^ 53) with 9007199254740992. lia. }
  rewrite !convert_numericChord by assumption.
  unfold chordText. rewrite !modifierLetters_mod8. split; reflexivity.
Qed.

Lemma decode_reads_mask_modulo_8_witness :
  safeInteger (-3) /\ safeInteger 81
  /\ convertNumericShortcutToString (Str (numericChord (-3) 81))
     = Some (chordText (-3 mod 8) 81).
Proof.
  assert (safeInteger (-3)) as Hm by (unfold safeInteger; lia).
  assert (safeInteger 81) as Hk by (unfold safeInteger; lia).
  split; [exact Hm|]. split; [exact Hk|].
  exact (proj1 (decode_reads_mask_modulo_8 (-3) 81 Hm Hk)).
Defined.

(** X3.  No answer of the converter is itself a numeric chord: converting a
    converted chord gives [null]. *)
Theorem decode_output_is_rejected (v : Value) (chord : string) :
  convertNumericShortcutToString v = Some chord ->
  convertNumericShortcutToString (Str chord) = None.
Proof.
  intros H. apply convert_Some in H as (s & _ & _ & _ & _ & ->).
  apply convert_shape. rewrite codedChord_no_comma. discriminate.
Qed.

Lemma decode_output_is_rejected_witness :
  convertNumericShortcutToString (Str "4,56") = Some "A+8"
  /\ convertNumericShortcutToString (Str "A+8") = None.
Proof.
  split; [reflexivity|].
  apply (decode_output_is_rejected (Str "4,56") "A+8"). reflexivity.
Defined.

(** X4.  The converter does not tell the key codes 0..9 from the key codes
    48..57 of the digits: under any mask both decode to the same chord. *)
Theorem decode_merges_digit_codes (m d : Z) :
  0 <= d <= 9 ->
  convertNumericShortcutToString (Str (numericChord m d))
    = convertNumericShortcutToString (Str (numericChord m (48 + d))).
Proof.
  intros Hd. unfold numericChord.
  assert (safeInteger d /\ safeInteger (48 + d)) as [Hs Hs']
    by (unfold safeInteger; change (2 ^ 53) with 9007199254740992; lia).
  rewrite !convert_join by apply numberToString_no_comma.
  rewrite (parseInt_numberToString d Hs), (parseInt_numberToString (48 + d) Hs').
  cbn [isNaN].
  destruct (isNaN (parseInt (numberToString m)) || false); [reflexivity|].
  f_equal. unfold codedChord.
  assert (codedKey (Fin d) = codedKey (Fin (48 + d))) as ->; [|reflexivity].
  assert (exists n, d = Z.of_nat n /\ (n < 10)%nat) as (n & -> & Hn)
    by (exists (Z.to_nat d); lia).
  do 10 (destruct n as [|n]; [reflexivity|]). lia.
Qed.

Lemma decode_merges_digit_codes_witness :
  0 <= 8 <= 9
  /\ convertNumericShortcutToString (Str (numericChord 4 8))
     = convertNumericShortcutToString (Str (numericChord 4 (48 + 8))).
Proof. split; [lia | apply (decode_merges_digit_codes 4 8); lia]. Defined.

End ConverterResults.

(** ** Further properties of the lifecycle *)

Section LifecycleResults.

Import Js.

#[local] Opaque convertNumericShortcutToString.

Lemma startupCalls_keys id n d def cfg1 cfg2 :
  optShortcutKeys cfg1 = optShortcutKeys cfg2 ->
  startupCalls id n d def cfg1 = startupCalls id n d def cfg2.
Proof. intros H. unfold startupCalls, shortcutKeysToUse. now rewrite H. Qed.

(** A page load is determined by the [shortcutKeys] of the four stored
    records. *)
Lemma pageLoad_depends_on_keys (s1 s2 : gmap string StoredText) :
  (forall i, savedKeys i s1 = savedKeys i s2) ->
  pageLoad s1
  = mkState s1 (sdkCalls (pageLoad s2)) (lastSavedKeys2 (pageLoad s2))
      (lastSavedKeys4 (pageLoad s2)) (initialized (pageLoad s2)).
Proof.
  intros Hk.
  destruct pageLoad_shape as (n1 & d1 & n2 & d2 & n3 & d3 & n4 & d4 & H).
  rewrite !H. cbv zeta.
  rewrite (startupThrows_keys Demo1 _ _ (Hk Demo1)),
    (startupThrows_keys Demo4 _ _ (Hk Demo4)).
  rewrite (startupCalls_keys _ _ _ _ _ _ (Hk Demo1)),
    (startupCalls_keys _ _ _ _ _ _ (Hk Demo2)),
    (startupCalls_keys _ _ _ _ _ _ (Hk Demo3)),
    (startupCalls_keys _ _ _ _ _ _ (Hk Demo4)), (Hk Demo2), (Hk Demo4).
  destruct (startupThrows Demo1 s2); [reflexivity|].
  now destruct (startupThrows Demo4 s2).
Qed.

(** *** Startup *)

(** X5.  A page load leaves the storage as it found it and asks the host
    for the registrations in the order 1, 2, 3, 4: for all four when no
    startup throws, for none when the startup of shortcut 1 throws, for the
    first three when the startup of shortcut 4 throws. *)
Theorem page_load_requests_registrations_in_order
    (storage : gmap string StoredText) :
  localStorage (pageLoad storage) = storage
  /\ createdIds (sdkCalls (pageLoad storage)) = expectedCreations storage.
Proof.
  split; [apply pageLoad_storage|].
  destruct pageLoad_shape as (n1 & d1 & n2 & d2 & n3 & d3 & n4 & d4 & H).
  rewrite H. cbv zeta. unfold expectedCreations.
  destruct (startupThrows Demo1 storage); [reflexivity|].
  destruct (startupThrows Demo4 storage); cbn [sdkCalls];
    rewrite !createdIds_app, !createdIds_startupCalls; reflexivity.
Qed.

(** X20.  When the stored record of shortcut 1 has truthy [shortcutKeys]
    that cannot be converted to a string, the page load stops in the
    startup of shortcut 1: the deregistration of shortcut 1 is the only
    call to the host, no shortcut is registered, and no hook and no timer
    exists afterwards, so that saves, resets and ticks change nothing. *)
Theorem page_load_aborts_on_unprintable_keys (storage : gmap string StoredText) :
  startupThrows Demo1 storage = true ->
  completes (initializeShortcuts (freshPage storage)) = false
  /\ sdkCalls (pageLoad storage) = [deleteShortcut Action1.shortcutId]
  /\ (forall i, registeredKeys (idOf i) (sdkCalls (pageLoad storage)) = None)
  /\ (forall i, isInitialized i (pageLoad storage) = false)
  /\ (forall op, isReload op = false ->
                 run op (pageLoad storage) = pageLoad storage).
Proof.
  intros Hthrow.
  assert (forall i, isInitialized i (pageLoad storage) = false) as Hinit.
  { intros i. rewrite pageLoad_initialized. unfold reaches.
    destruct i; rewrite Hthrow; reflexivity. }
  split.
  { destruct initializeShortcut1_shape as (n1 & d1 & H1).
    unfold initializeShortcuts. rewrite H1. cbn [freshPage localStorage].
    now rewrite Hthrow. }
  split.
  { destruct pageLoad_shape as (n1 & d1 & n2 & d2 & n3 & d3 & n4 & d4 & H).
    rewrite H. cbv zeta. now rewrite Hthrow. }
  split.
  { intros i. rewrite pageLoad_registeredKeys. unfold reaches.
    destruct i; rewrite Hthrow; reflexivity. }
  split; [exact Hinit|].
  intros op Hop. destruct op as [|i all|i|a all]; cbn [run].
  - discriminate Hop.
  - now rewrite Hinit.
  - now rewrite Hinit.
  - now rewrite tick_unfold, Hinit.
Qed.

Lemma page_load_aborts_on_unprintable_keys_witness :
  let storage : gmap string StoredText :=
    {[ Action1.storageKey := JsonText unprintableRecord ]} in
  startupThrows Demo1 storage = true
  /\ completes (initializeShortcuts (freshPage storage)) = false
  /\ sdkCalls (pageLoad storage) = [deleteShortcut Action1.shortcutId]
  /\ (forall i, registeredKeys (idOf i) (sdkCalls (pageLoad storage)) = None)
  /\ (forall i, isInitialized i (pageLoad storage) = false)
  /\ (forall op, isReload op = false ->
                 run op (pageLoad storage) = pageLoad storage).
Proof.
  intros storage. split; [reflexivity|].
  refine (page_load_aborts_on_unprintable_keys storage _). reflexivity.
Defined.

(** X6.  A page load asks for the deregistration of a shortcut exactly when
    it gets to the startup of the shortcut and the stored record of the
    shortcut has truthy [shortcutKeys]; on a first run no deregistration is
    asked for. *)
Theorem page_load_deregisters_iff_keys_saved
    (storage : gmap string StoredText) (i : Instance) :
  In (deleteShortcut (idOf i)) (sdkCalls (pageLoad storage))
  <-> truthy (savedKeys i storage) = true /\ reaches i storage = true.
Proof. apply pageLoad_deletes_iff. Qed.

(** X7.  Startup reads nothing but [shortcutKeys] from the stored records:
    two storages whose records agree on it lead to the same host calls and
    the same [lastSavedKeys], so stored ids, names and descriptions are
    ignored. *)
Theorem page_load_reads_only_shortcutKeys (s1 s2 : gmap string StoredText) :
  (forall i, savedKeys i s1 = savedKeys i s2) ->
  sdkCalls (pageLoad s1) = sdkCalls (pageLoad s2)
  /\ lastSavedKeys2 (pageLoad s1) = lastSavedKeys2 (pageLoad s2)
  /\ lastSavedKeys4 (pageLoad s1) = lastSavedKeys4 (pageLoad s2).
Proof.
  intros Hk.
  destruct pageLoad_shape as (n1 & d1 & n2 & d2 & n3 & d3 & n4 & d4 & H).
  rewrite !H. cbv zeta.
  rewrite (startupThrows_keys Demo1 _ _ (Hk Demo1)),
    (startupThrows_keys Demo4 _ _ (Hk Demo4)).
  assert (forall i, optShortcutKeys (loadSavedConfig (storageKeyOf i) s1)
                    = optShortcutKeys (loadSavedConfig (storageKeyOf i) s2))
    as Hc by exact Hk.
  rewrite (startupCalls_keys _ _ _ _ _ _ (Hc Demo1)),
    (startupCalls_keys _ _ _ _ _ _ (Hc Demo2)),
    (startupCalls_keys _ _ _ _ _ _ (Hc Demo3)),
    (startupCalls_keys _ _ _ _ _ _ (Hc Demo4)), (Hk Demo2), (Hk Demo4).
  destruct (startupThrows Demo1 s2); [repeat split; reflexivity|].
  destruct (startupThrows Demo4 s2); repeat split; reflexivity.
Qed.

Lemma page_load_reads_only_shortcutKeys_witness :
  let s1 : gmap string StoredText :=
    {[ Action2.storageKey := JSON_stringify (configToSave shiftX2) ]} in
  let s2 : gmap string StoredText :=
    {[ Action2.storageKey := JsonText (Object [("shortcutKeys", Str "2,88")]) ]} in
  (forall i, savedKeys i s1 = savedKeys i s2)
  /\ sdkCalls (pageLoad s1) = sdkCalls (pageLoad s2)
  /\ lastSavedKeys2 (pageLoad s1) = lastSavedKeys2 (pageLoad s2)
  /\ lastSavedKeys4 (pageLoad s1) = lastSavedKeys4 (pageLoad s2).
Proof.
  intros s1 s2.
  assert (forall i, savedKeys i s1 = savedKeys i s2) as Hk
    by (intros i; destruct i; reflexivity).
  split; [exact Hk|].
  exact (page_load_reads_only_shortcutKeys s1 s2 Hk).
Defined.

(** X8.  A stored text that is empty, that [JSON.parse] rejects or that
    parses to something without [shortcutKeys] is treated like an absent
    record: the page load issues the same host calls and sets the same
    [lastSavedKeys], and when it gets to the shortcut it registers it with
    its hardcoded default or with no chord. *)
Theorem unusable_record_is_absent_record
    (i : Instance) (storage : gmap string StoredText) (t : StoredText) :
  t = EmptyText \/ t = BadText
  \/ (exists v, t = JsonText v /\ optShortcutKeys v = Undefined) ->
  sdkCalls (pageLoad (<[storageKeyOf i := t]> storage))
    = sdkCalls (pageLoad (delete (storageKeyOf i) storage))
  /\ lastSavedKeys2 (pageLoad (<[storageKeyOf i := t]> storage))
     = lastSavedKeys2 (pageLoad (delete (storageKeyOf i) storage))
  /\ lastSavedKeys4 (pageLoad (<[storageKeyOf i := t]> storage))
     = lastSavedKeys4 (pageLoad (delete (storageKeyOf i) storage))
  /\ (reaches i (<[storageKeyOf i := t]> storage) = true ->
      registeredKeys (idOf i)
        (sdkCalls (pageLoad (<[storageKeyOf i := t]> storage)))
      = Some (defaultOf i)).
Proof.
  intros Ht.
  assert (savedKeys i (<[storageKeyOf i := t]> storage) = Undefined) as Hi.
  { unfold savedKeys, loadSavedConfig. rewrite lookup_insert_eq.
    destruct Ht as [-> | [-> | (v & -> & Hv)]]; [reflexivity | reflexivity | exact Hv]. }
  assert (forall j, savedKeys j (<[storageKeyOf i := t]> storage)
                    = savedKeys j (delete (storageKeyOf i) storage)) as Hk.
  { intros j. destruct (String.eqb_spec (storageKeyOf i) (storageKeyOf j)) as [E|E].
    - apply storageKeyOf_inj in E as <-. rewrite Hi.
      unfold savedKeys, loadSavedConfig. now rewrite lookup_delete_eq.
    - apply savedKeys_lookup.
      now rewrite lookup_insert_ne, lookup_delete_ne by assumption. }
  pose proof (pageLoad_depends_on_keys _ _ Hk) as Hp.
  split; [now rewrite Hp|]. split; [now rewrite Hp|]. split; [now rewrite Hp|].
  intros Hreach.
  assert (truthy (savedKeys i (<[storageKeyOf i := t]> storage)) = false) as Hf
    by now rewrite Hi.
  rewrite pageLoad_registeredKeys, Hreach, (startupThrows_falsy _ _ Hf).
  cbn [andb negb]. f_equal. now apply shortcutKeysToUse_falsy.
Qed.

Lemma unusable_record_is_absent_record_witness :
  (BadText = EmptyText \/ BadText = BadText
   \/ (exists v, BadText = JsonText v /\ optShortcutKeys v = Undefined))
  /\ (reaches Demo2 (<[storageKeyOf Demo2 := BadText]> ∅) = true ->
      registeredKeys (idOf Demo2)
        (sdkCalls (pageLoad (<[storageKeyOf Demo2 := BadText]> ∅)))
      = Some (defaultOf Demo2)).
Proof.
  assert (BadText = EmptyText \/ BadText = BadText
          \/ (exists v, BadText = JsonText v /\ optShortcutKeys v = Undefined))
    as Ht by (right; left; reflexivity).
  split; [exact Ht|].
  exact (proj2 (proj2 (proj2 (unusable_record_is_absent_record Demo2 ∅ BadText Ht)))).
Defined.



(** *** Hooks and ticks *)

(** X10.  The shortcuts do not interfere through the storage: a save, a
    reset or a tick of one shortcut leaves the stored record of every other
    shortcut as it was, and with it the host calls of the startup of that
    other shortcut; unless the operation is one of shortcut 1, whose
    startup decides whether a page load gets to the others, the chord the
    next page load registers for the other shortcut stays the same too. *)
Theorem instances_are_isolated (op : Op) (i j : Instance) (st : State) :
  opInstance op = Some i ->
  j <> i ->
  localStorage (run op st) !! storageKeyOf j = localStorage st !! storageKeyOf j
  /\ sdkCalls (stateOf (startup j (localStorage (run op st))))
     = sdkCalls (stateOf (startup j (localStorage st)))
  /\ completes (startup j (localStorage (run op st)))
     = completes (startup j (localStorage st))
  /\ (i <> Demo1 ->
      registeredKeys (idOf j) (sdkCalls (pageLoad (localStorage (run op st))))
      = registeredKeys (idOf j) (sdkCalls (pageLoad (localStorage st)))).
Proof.
  intros Hop Hj.
  assert (forall j', j' <> i ->
            localStorage (run op st) !! storageKeyOf j'
            = localStorage st !! storageKeyOf j') as Hl.
  { intros j' Hj'. apply (run_other_keys op i); [assumption|].
    intros E. now apply storageKeyOf_inj in E. }
  split; [now apply Hl|].
  destruct (startup_lookup j _ _ (Hl j Hj)) as [Hcalls Hdone].
  split; [exact Hcalls|]. split; [exact Hdone|].
  intros Hi. rewrite !pageLoad_registeredKeys.
  rewrite (startupThrows_lookup j _ _ (Hl j Hj)),
    (loadSavedConfig_lookup _ _ _ (Hl j Hj)).
  assert (reaches j (localStorage (run op st)) = reaches j (localStorage st)) as ->;
    [|reflexivity].
  unfold reaches. destruct j; try reflexivity;
    now rewrite (startupThrows_lookup Demo1 _ _ (Hl Demo1 ltac:(congruence))).
Qed.

Lemma instances_are_isolated_witness :
  opInstance (Save Demo1 [altEight1]) = Some Demo1
  /\ Demo2 <> Demo1
  /\ localStorage (run (Save Demo1 [altEight1]) (pageLoad ∅)) !! storageKeyOf Demo2
     = localStorage (pageLoad ∅) !! storageKeyOf Demo2.
Proof.
  assert (opInstance (Save Demo1 [altEight1]) = Some Demo1) as H1 by reflexivity.
  assert (Demo2 <> Demo1) as H2 by discriminate.
  split; [exact H1|]. split; [exact H2|].
  exact (proj1 (instances_are_isolated (Save Demo1 [altEight1]) Demo1 Demo2
                  (pageLoad ∅) H1 H2)).
Defined.

(** X11.  Whatever is run, page loads, saves, resets and ticks in any order,
    only the storage keys of the four shortcuts are ever written or deleted:
    every other key of the storage keeps its value. *)
Theorem script_touches_only_its_keys (ops : list Op) (st : State) (key : string) :
  ownKey key = false ->
  localStorage (runAll ops st) !! key = localStorage st !! key.
Proof.
  intros Hkey. revert st. unfold runAll.
  induction ops as [|op ops IH]; intros st; cbn [fold_left]; [reflexivity|].
  rewrite IH.
  destruct (opInstance op) as [i|] eqn:Hop.
  - apply (run_other_keys op i); [assumption|].
    intros ->. rewrite ownKey_storageKeyOf in Hkey. discriminate Hkey.
  - destruct op; try discriminate Hop. cbn [run]. now rewrite pageLoad_storage.
Qed.

Lemma script_touches_only_its_keys_witness :
  let st := setItem "theme" EmptyText (pageLoad ∅) in
  ownKey "theme" = false
  /\ localStorage (runAll [Save Demo1 [altEight1]; Reset Demo2; Reload] st) !! "theme"
     = localStorage st !! "theme".
Proof.
  intros st. split; [reflexivity|].
  apply (script_touches_only_its_keys
           [Save Demo1 [altEight1]; Reset Demo2; Reload] st "theme").
  reflexivity.
Defined.

(** X12.  After startup the script never calls the host to change a
    registration: saves, resets and ticks issue no [deleteShortcut] and no
    [createShortcut], so a changed or reset record takes effect at the next
    page load only. *)
Theorem no_host_call_after_startup (ops : list Op) (st : State) :
  Forall (fun op => isReload op = false) ops ->
  sdkCalls (runAll ops st) = sdkCalls st.
Proof.
  intros Hops. revert st. unfold runAll.
  induction Hops as [|op ops Hop _ IH]; intros st; cbn [fold_left]; [reflexivity|].
  rewrite IH. now apply run_sdkCalls.
Qed.

Lemma no_host_call_after_startup_witness :
  let ops := [Tick Auto2 [shiftX2]; Save Demo1 [altEight1]; Reset Demo2] in
  Forall (fun op => isReload op = false) ops
  /\ sdkCalls (runAll ops (pageLoad ∅)) = sdkCalls (pageLoad ∅).
Proof.
  intros ops.
  assert (Forall (fun op => isReload op = false) ops) as H by (repeat constructor).
  split; [exact H|]. exact (no_host_call_after_startup ops (pageLoad ∅) H).
Defined.

(** X13.  For the auto-saving shortcuts a manual save and a tick on the same
    registrations absorb each other: a tick right after a manual save
    changes nothing, and a manual save right after a tick ends in the state
    the manual save alone reaches. *)
Theorem tick_and_save_compose
    (a : AutoSaved) (allShortcuts : list Shortcut) (st : State) :
  tick a allShortcuts (save (instanceOf a) allShortcuts st)
    = save (instanceOf a) allShortcuts st
  /\ save (instanceOf a) allShortcuts (tick a allShortcuts st)
     = save (instanceOf a) allShortcuts st.
Proof.
  split.
  - rewrite tick_unfold.
    destruct (isInitialized _ _); [|reflexivity].
    rewrite save_auto_unfold.
    destruct (findShortcut _ allShortcuts) as [sc|]; [|reflexivity].
    rewrite lastSavedKeys_setLastSavedKeys.
    destruct (shortcutKeys sc) as [c|]; [|reflexivity].
    cbn [ofOption]. rewrite strictEq_Str_refl. cbn [negb].
    now destruct (truthy (Str c)).
  - rewrite !save_auto_unfold, tick_unfold.
    destruct (isInitialized _ _); [|reflexivity].
    destruct (findShortcut _ allShortcuts) as [sc|]; [|reflexivity].
    destruct (truthy _); [|reflexivity]. destruct (negb _); [|reflexivity].
    destruct a, st; unfold setLastSavedKeys, setLastSavedKeys2, setLastSavedKeys4,
      setItem; cbn [localStorage sdkCalls lastSavedKeys2 lastSavedKeys4 initialized];
      now rewrite insert_insert_eq.
Qed.

(** X14.  Saving twice on the same registrations is saving once, and a reset
    after a save leaves the storage as a reset alone does. *)
Theorem save_is_idempotent_and_reset_cancels_it
    (i : Instance) (allShortcuts : list Shortcut) (st : State) :
  save i allShortcuts (save i allShortcuts st) = save i allShortcuts st
  /\ localStorage (reset i (save i allShortcuts st)) = localStorage (reset i st).
Proof.
  split.
  - destruct i; cbn [save];
      unfold Action1.saveDemoShortcut1, Action2.saveDemoShortcut2,
        Action3.saveDemoShortcut3, Action4.saveDemoShortcut4;
      (destruct (findShortcut _ allShortcuts) as [sc|]; [|reflexivity]);
      try (destruct (negb _); [reflexivity|]);
      destruct st; unfold setLastSavedKeys2, setLastSavedKeys4, setItem;
      cbn [localStorage sdkCalls lastSavedKeys2 lastSavedKeys4 initialized];
      now rewrite insert_insert_eq.
  - rewrite !reset_storage, save_storage.
    destruct (findShortcut _ allShortcuts) as [sc|]; [|reflexivity].
    destruct i; try apply delete_insert_eq.
    destruct (truthy _); [apply delete_insert_eq | reflexivity].
Qed.



(** X16.  A page load primes [lastSavedKeys] with the stored chord, so the
    first tick after the load writes nothing as long as the live chord is the
    stored one. *)
Theorem reload_then_tick_is_noop
    (a : AutoSaved) (allShortcuts : list Shortcut)
    (storage : gmap string StoredText) (shortcut : Shortcut) (c : string) :
  savedKeys (instanceOf a) storage = Str c ->
  findShortcut (idOf (instanceOf a)) allShortcuts = Some shortcut ->
  shortcutKeys shortcut = Some c ->
  tick a allShortcuts (pageLoad storage) = pageLoad storage.
Proof.
  intros Hsaved Hfind Hkeys. rewrite tick_unfold.
  destruct (isInitialized _ _) eqn:Hinit; [|reflexivity].
  rewrite Hfind, Hkeys, (pageLoad_lastSavedKeys _ _ Hinit), Hsaved.
  cbn [ofOption]. unfold logicalOr.
  destruct (truthy (Str c)); [|reflexivity].
  now rewrite strictEq_Str_refl.
Qed.

Lemma reload_then_tick_is_noop_witness :
  let storage : gmap string StoredText :=
    {[ Action2.storageKey := JSON_stringify (configToSave shiftX2) ]} in
  savedKeys (instanceOf Auto2) storage = Str "2,88"
  /\ findShortcut (idOf (instanceOf Auto2)) [shiftX2] = Some shiftX2
  /\ shortcutKeys shiftX2 = Some "2,88"
  /\ tick Auto2 [shiftX2] (pageLoad storage) = pageLoad storage.
Proof.
  intros storage.
  split; [reflexivity|]. split; [reflexivity|]. split; [reflexivity|].
  refine (reload_then_tick_is_noop Auto2 [shiftX2] storage shiftX2 "2,88" _ _ _);
    reflexivity.
Defined.



(** X18.  A reset of an auto-saving shortcut is not undone by the timer: as
    long as the live registration is absent, has no chord or the empty chord,
    or has the chord [lastSavedKeys] holds, any number of ticks leaves the
    reset state as it is and the storage key absent. *)
Theorem reset_survives_ticks
    (a : AutoSaved) (allShortcuts : list Shortcut) (st : State) (n : nat) :
  findShortcut (idOf (instanceOf a)) allShortcuts = None
  \/ (exists shortcut,
         findShortcut (idOf (instanceOf a)) allShortcuts = Some shortcut
         /\ (shortcutKeys shortcut = None
             \/ shortcutKeys shortcut = Some ""
             \/ strictEq (ofOption (shortcutKeys shortcut))
                         (lastSavedKeys a st) = true)) ->
  ticks n a allShortcuts (reset (instanceOf a) st) = reset (instanceOf a) st
  /\ localStorage (ticks n a allShortcuts (reset (instanceOf a) st))
       !! storageKeyOf (instanceOf a) = None.
Proof.
  intros Hcase.
  assert (tick a allShortcuts (reset (instanceOf a) st) = reset (instanceOf a) st)
    as Hone.
  { rewrite tick_unfold, lastSavedKeys_reset.
    destruct (isInitialized _ _); [|reflexivity].
    destruct Hcase as [-> | (sc & -> & [-> | [-> | Heq]])]; try reflexivity.
    rewrite Heq. cbn [negb]. now destruct (truthy _). }
  assert (ticks n a allShortcuts (reset (instanceOf a) st) = reset (instanceOf a) st)
    as Hall.
  { unfold ticks. induction n as [|n IH]; [reflexivity|].
    rewrite Nat.iter_succ, IH. exact Hone. }
  split; [exact Hall|].
  rewrite Hall, reset_storage. apply lookup_delete_eq.
Qed.

Lemma reset_survives_ticks_witness :
  let st := tick Auto2 [shiftX2] (pageLoad ∅) in
  (findShortcut (idOf (instanceOf Auto2)) [shiftX2] = None
   \/ (exists shortcut,
          findShortcut (idOf (instanceOf Auto2)) [shiftX2] = Some shortcut
          /\ (shortcutKeys shortcut = None
              \/ shortcutKeys shortcut = Some ""
              \/ strictEq (ofOption (shortcutKeys shortcut))
                          (lastSavedKeys Auto2 st) = true)))
  /\ localStorage (ticks 3 Auto2 [shiftX2] (reset (instanceOf Auto2) st))
       !! storageKeyOf (instanceOf Auto2) = None.
Proof.
  intros st.
  assert (findShortcut (idOf (instanceOf Auto2)) [shiftX2] = None
          \/ (exists shortcut,
                 findShortcut (idOf (instanceOf Auto2)) [shiftX2] = Some shortcut
                 /\ (shortcutKeys shortcut = None
                     \/ shortcutKeys shortcut = Some ""
                     \/ strictEq (ofOption (shortcutKeys shortcut))
                                 (lastSavedKeys Auto2 st) = true))) as H.
  { right. exists shiftX2. split; [reflexivity|]. right. right. reflexivity. }
  split; [exact H|].
  exact (proj2 (reset_survives_ticks Auto2 [shiftX2] st 3 H)).
Defined.

(** X19.  Records stay with their shortcut: if every record stored under the
    key of a shortcut carries the id of that shortcut, this remains so after
    any run of page loads, saves, resets and ticks, whatever the host lists. *)
Theorem records_name_their_shortcut (ops : list Op) (st : State) :
  recordsNameTheirShortcut (localStorage st) ->
  recordsNameTheirShortcut (localStorage (runAll ops st)).
Proof.
  revert st. unfold runAll.
  induction ops as [|op ops IH]; intros st Hinv; cbn [fold_left]; [exact Hinv|].
  apply IH. now apply run_keeps_record_ids.
Qed.

Lemma records_name_their_shortcut_witness :
  let ops := [Tick Auto2 [shiftX2]; Save Demo1 [noChord1]; Reset Demo2; Reload] in
  recordsNameTheirShortcut (localStorage (pageLoad ∅))
  /\ recordsNameTheirShortcut (localStorage (runAll ops (pageLoad ∅))).
Proof.
  intros ops.
  assert (recordsNameTheirShortcut (localStorage (pageLoad ∅))) as H.
  { rewrite pageLoad_storage. intros i cfg Hl.
    rewrite lookup_empty in Hl. discriminate Hl. }
  split; [exact H|]. exact (records_name_their_shortcut ops (pageLoad ∅) H).
Defined.

End LifecycleResults.
